(** * CIVIL front end: sealing, verification and upload paths

    A shallow embedding of the TypeScript sources of the CIVIL dashboard
    (services/api.ts, services/api-edge.ts, components/FileUpload.tsx,
    components/CreateRecordForm.tsx, pages/VerifyRecord.tsx and
    pages/CreateRecord.tsx) together with the properties the
    specification states about them.

    Conventions of the embedding.
    - A JavaScript string is a [string]: one [ascii] per code unit, which
      covers the code units U+0000 to U+00FF.
    - A JavaScript value that travels through [response.json()] or
      [JSON.stringify] is a [JS.value]; a number is kept by the decimal text
      [Number::toString] gives it, integers used in arithmetic are [Z] or [N].
    - An async function is a function of the world it runs in: it returns an
      [Outcome] (the value it resolves with, or what it throws) and the next
      world.  [fetch] is the one primitive that reads and changes the world. *)

From Stdlib Require Import ZArith NArith List String Ascii Bool Lia.
From Stdlib.Strings Require Import Byte.
From Stdlib Require Import DecimalString.
Import ListNotations.

Set Warnings "-register-all".

Local Open Scope list_scope.
Local Open Scope string_scope.

(* ================================================================== *)
(** * JavaScript strings and values *)
(* ================================================================== *)

Module JS.

(** The double quote and the line feed, by code. *)
Definition dquote : ascii := ascii_of_nat 34.
Definition backslash : ascii := ascii_of_nat 92.
Definition LF : ascii := ascii_of_nat 10.
Definition str1 (c : ascii) : string := String c EmptyString.

(** [WhiteSpace] and [LineTerminator] code units below U+0100:
    TAB, LF, VT, FF, CR, SP and NBSP. *)
Definition isWhiteSpace (c : ascii) : bool :=
  let n := N_of_ascii c in
  ((9 <=? n) && (n <=? 13) || (n =? 32) || (n =? 160))%N.

(** [String.prototype.trimStart], [trimEnd] and [trim]. *)
Fixpoint trimStart (s : string) : string :=
  match s with
  | EmptyString => EmptyString
  | String c r => if isWhiteSpace c then trimStart r else s
  end.

Fixpoint trimEnd (s : string) : string :=
  match s with
  | EmptyString => EmptyString
  | String c r =>
      match trimEnd r with
      | EmptyString => if isWhiteSpace c then EmptyString else str1 c
      | r' => String c r'
      end
  end.

Definition trim (s : string) : string := trimEnd (trimStart s).

(** [s.length], as an integer. *)
Definition length (s : string) : Z := Z.of_nat (String.length s).

(** [n.toString()] and a template literal's rendering of an integer. *)
Definition Number_toString (n : Z) : string :=
  NilZero.string_of_int (Z.to_int n).

(** A number argument that is only ever printed, kept as in [Num] by the
    text [Number::toString] and a template literal give it: 20, 0.5,
    1e+21, NaN, Infinity. *)
Definition number : Type := string.

(** One hexadecimal digit, lower case. *)
Definition hexDigit (d : N) : ascii :=
  ascii_of_N (if (d <? 10)%N then 48 + d else 87 + d)%N.

(** [n.toString(16)] for a non-negative integer: most significant digit
    first, no leading zero, ["0"] for zero. *)
Fixpoint toString16_loop (fuel : nat) (n : N) (acc : string) : string :=
  match fuel with
  | O => acc
  | S fuel' =>
      let acc' := String (hexDigit (n mod 16)) acc in
      if (n / 16 =? 0)%N then acc' else toString16_loop fuel' (n / 16) acc'
  end.

Definition Number_toString16 (n : N) : string :=
  toString16_loop (S (N.to_nat (N.log2 n))) n EmptyString.

Fixpoint repeatString (n : nat) (c : ascii) : string :=
  match n with
  | O => EmptyString
  | S n' => String c (repeatString n' c)
  end.

(** [s.padStart(targetLength, pad)] for a pad string of one code unit. *)
Definition padStart (targetLength : nat) (pad : ascii) (s : string) : string :=
  repeatString (targetLength - String.length s) pad ++ s.

(** Values: [undefined], [null], booleans, numbers, strings, arrays and
    plain objects (own enumerable properties in property order, keys
    distinct). *)
Inductive value : Type :=
| Undefined
| Null
| Bool (b : bool)
| Num (lit : string)
| Str (s : string)
| Arr (elems : list value)
| Obj (props : list (string * value)).

(** [ToBoolean]. *)
Definition truthy (v : value) : bool :=
  match v with
  | Undefined | Null => false
  | Bool b => b
  | Num lit => negb ((lit =? "0") || (lit =? "NaN"))
  | Str s => negb (s =? "")
  | Arr _ | Obj _ => true
  end.

(** [a || b] and [a && b] on values. *)
Definition or_ (a b : value) : value := if truthy a then a else b.
Definition and_ (a b : value) : value := if truthy a then b else a.

(** [ToString]; an array joins its elements with commas, [undefined] and
    [null] elements as the empty string. *)
Fixpoint ToString (v : value) : string :=
  match v with
  | Undefined => "undefined"
  | Null => "null"
  | Bool true => "true"
  | Bool false => "false"
  | Num lit => lit
  | Str s => s
  | Arr elems =>
      String.concat ","
        (map (fun e => match e with
                       | Undefined | Null => EmptyString
                       | _ => ToString e
                       end) elems)
  | Obj _ => "[object Object]"
  end.

Fixpoint lookup (k : string) (props : list (string * value)) : value :=
  match props with
  | [] => Undefined
  | (k', x) :: rest => if k' =? k then x else lookup k rest
  end.

(** [v.k] for a value that is neither [undefined] nor [null]: the own
    property, [undefined] when there is none.  The names the sources read
    (id, data, error, message, isValid, ...) are no built-in properties of
    strings, numbers, booleans or arrays. *)
Definition prop (v : value) (k : string) : value :=
  match v with
  | Obj props => lookup k props
  | _ => Undefined
  end.

(** The own property names of an object, in order. *)
Definition keys (v : value) : list string :=
  match v with
  | Obj props => map fst props
  | _ => []
  end.

(** What a [throw] carries: an instance of [Error] (or of a subclass, by
    [name]) with its message, or any other value. *)
Inductive thrown : Type :=
| ErrorInstance (name message : string)
| Thrown (v : value).

(** [new Error(m)]. *)
Definition Error_ (m : value) : thrown :=
  ErrorInstance "Error" (match m with Undefined => EmptyString | _ => ToString m end).

(** [err instanceof Error ? err.message : fallback]. *)
Definition messageOr (fallback : string) (err : thrown) : string :=
  match err with
  | ErrorInstance _ message => message
  | Thrown _ => fallback
  end.

Inductive Outcome (A : Type) : Type :=
| Return (a : A)
| Throw (e : thrown).
Arguments Return {A} a.
Arguments Throw {A} e.

(** [v.k] for any value: reading a property of [undefined] or [null]
    throws a TypeError (message in V8's wording). *)
Definition get (v : value) (k : string) : Outcome value :=
  match v with
  | Undefined | Null =>
      Throw (ErrorInstance "TypeError"
               ("Cannot read properties of " ++ ToString v ++ " (reading '" ++ k ++ "')"))
  | _ => Return (prop v k)
  end.

(** The properties an object literal gains from [...(c && { k: x })]. *)
Definition spreadWhen (c : value) (k : string) (x : value) : list (string * value) :=
  if truthy c then [(k, x)] else [].

(** An optional property: present when it has a value. *)
Definition optional {A : Type} (k : string) (f : A -> value) (x : option A)
  : list (string * value) :=
  match x with
  | Some a => [(k, f a)]
  | None => []
  end.

End JS.

(* ================================================================== *)
(** * JSON.stringify *)
(* ================================================================== *)

Module JSON.
Import JS.

(** [QuoteJSONString]: the two-character escapes, [\u00xx] for the other
    control characters, every other code unit as it is. *)
Definition escape (c : ascii) : string :=
  let n := N_of_ascii c in
  if (n =? 8)%N then "\b"
  else if (n =? 9)%N then "\t"
  else if (n =? 10)%N then "\n"
  else if (n =? 12)%N then "\f"
  else if (n =? 13)%N then "\r"
  else if (n =? 34)%N then String backslash (str1 dquote)
  else if (n =? 92)%N then String backslash (str1 backslash)
  else if (n <? 32)%N then
    "\u00" ++ String (hexDigit (n / 16)) (str1 (hexDigit (n mod 16)))
  else str1 c.

Fixpoint escapeAll (s : string) : string :=
  match s with
  | EmptyString => EmptyString
  | String c r => escape c ++ escapeAll r
  end.

Definition quote (s : string) : string :=
  String dquote (escapeAll s ++ str1 dquote).

(** [SerializeJSONProperty] with [SerializeJSONObject] and
    [SerializeJSONArray]: [gap] is the indentation unit ([""] for the
    compact form), [indent] the current indentation.  [None] is
    [undefined]: such a property is left out, such an array element is
    written [null]. *)
Fixpoint serialize (gap indent : string) (v : value) : option string :=
  match v with
  | Undefined => None
  | Null => Some "null"
  | Bool true => Some "true"
  | Bool false => Some "false"
  | Num lit => Some lit
  | Str s => Some (quote s)
  | Arr elems =>
      let stepback := indent in
      let indent := indent ++ gap in
      let partial :=
        map (fun e => match serialize gap indent e with
                      | Some s => s
                      | None => "null"
                      end) elems in
      Some (match partial with
            | [] => "[]"
            | _ =>
                if gap =? "" then "[" ++ String.concat "," partial ++ "]"
                else "[" ++ str1 LF ++ indent
                     ++ String.concat ("," ++ str1 LF ++ indent) partial
                     ++ str1 LF ++ stepback ++ "]"
            end)
  | Obj props =>
      let stepback := indent in
      let indent := indent ++ gap in
      let partial :=
        flat_map (fun kx => match kx with
                            | (k, x) =>
                                match serialize gap indent x with
                                | Some s =>
                                    [quote k ++ ":" ++ (if gap =? "" then "" else " ") ++ s]
                                | None => []
                                end
                            end) props in
      Some (match partial with
            | [] => "{}"
            | _ =>
                if gap =? "" then "{" ++ String.concat "," partial ++ "}"
                else "{" ++ str1 LF ++ indent
                     ++ String.concat ("," ++ str1 LF ++ indent) partial
                     ++ str1 LF ++ stepback ++ "}"
            end)
  end.

(** [JSON.stringify(v)] and [JSON.stringify(v, null, 2)]. *)
Definition stringify (v : value) : option string := serialize "" "" v.
Definition stringify2 (v : value) : option string := serialize "  " "" v.

End JSON.

(* ================================================================== *)
(** * SHA-256 (FIPS 180-4), the digest behind [crypto.subtle.digest] *)
(* ================================================================== *)

Module SHA256.
Local Open Scope Z_scope.

(** 32-bit words are integers in [0, 2^32); every operation that can
    leave the range is masked back into it. *)
Definition mask32 : Z := 0xffffffff.
Definition w32 (x : Z) : Z := Z.land x mask32.
Definition add32 (x y : Z) : Z := w32 (x + y).
Definition not32 (x : Z) : Z := Z.lxor x mask32.
Definition rotr (n x : Z) : Z := w32 (Z.lor (Z.shiftr x n) (Z.shiftl x (32 - n))).
Definition shr (n x : Z) : Z := Z.shiftr x n.
Definition xor3 (x y z : Z) : Z := Z.lxor (Z.lxor x y) z.

Definition Ch (x y z : Z) : Z := Z.lxor (Z.land x y) (Z.land (not32 x) z).
Definition Maj (x y z : Z) : Z := xor3 (Z.land x y) (Z.land x z) (Z.land y z).
Definition Sigma0 (x : Z) : Z := xor3 (rotr 2 x) (rotr 13 x) (rotr 22 x).
Definition Sigma1 (x : Z) : Z := xor3 (rotr 6 x) (rotr 11 x) (rotr 25 x).
Definition sigma0 (x : Z) : Z := xor3 (rotr 7 x) (rotr 18 x) (shr 3 x).
Definition sigma1 (x : Z) : Z := xor3 (rotr 17 x) (rotr 19 x) (shr 10 x).

(** The constants are defined as FIPS 180-4 defines them, from the first
    sixty-four primes: [K] holds the first 32 bits of the fractional parts
    of their cube roots, [H0] those of the square roots of the first
    eight. *)
Definition isPrime (n : Z) : bool :=
  forallb (fun d => negb (n mod Z.of_nat d =? 0)) (seq 2 (Z.to_nat n - 2)).

Definition primes : list Z :=
  Eval vm_compute in filter isPrime (map Z.of_nat (seq 2 310)).

(** The largest [r] in [lo, hi) whose cube is at most [n], by bisection. *)
Fixpoint cubeRoot (fuel : nat) (lo hi n : Z) : Z :=
  match fuel with
  | O => lo
  | S fuel' =>
      let mid := (lo + hi) / 2 in
      if mid * mid * mid <=? n then cubeRoot fuel' mid hi n else cubeRoot fuel' lo mid n
  end.

Definition fractionOfCubeRoot (p : Z) : Z :=
  Z.land (cubeRoot 40 0 (Z.shiftl 1 36) (Z.shiftl p 96)) 0xffffffff.

Definition fractionOfSquareRoot (p : Z) : Z :=
  Z.land (Z.sqrt (Z.shiftl p 64)) 0xffffffff.

Definition K : list Z := Eval vm_compute in map fractionOfCubeRoot primes.

(** The eight working variables, also the running hash value. *)
Record registers : Type := mkRegisters {
  ra : Z; rb : Z; rc : Z; rd : Z; re : Z; rf : Z; rg : Z; rh : Z
}.

Definition H0 : registers :=
  Eval vm_compute in
    let h := fun i => fractionOfSquareRoot (nth i primes 0) in
    mkRegisters (h 0%nat) (h 1%nat) (h 2%nat) (h 3%nat) (h 4%nat) (h 5%nat) (h 6%nat) (h 7%nat).

Definition byteZ (b : byte) : Z := Z.of_N (Byte.to_N b).

Definition Zbyte (z : Z) : byte :=
  match Byte.of_N (Z.to_N (Z.land z 0xff)) with
  | Some b => b
  | None => x00
  end.

(** Big-endian bytes of a 32-bit word and of a 64-bit length. *)
Definition be32 (w : Z) : list Z :=
  [Z.land (Z.shiftr w 24) 0xff; Z.land (Z.shiftr w 16) 0xff;
   Z.land (Z.shiftr w 8) 0xff; Z.land w 0xff].

Definition be64 (n : Z) : list Z :=
  be32 (Z.shiftr n 32) ++ be32 (w32 n).

(** Padding: the bit 1, zeros up to 56 modulo 64 bytes, the bit length. *)
Definition pad (msg : list Z) : list Z :=
  let l := Z.of_nat (List.length msg) in
  msg ++ [0x80] ++ repeat 0 (Z.to_nat ((55 - l) mod 64)) ++ be64 (8 * l).

Fixpoint words (bs : list Z) : list Z :=
  match bs with
  | b0 :: b1 :: b2 :: b3 :: rest =>
      Z.lor (Z.lor (Z.shiftl b0 24) (Z.shiftl b1 16)) (Z.lor (Z.shiftl b2 8) b3)
      :: words rest
  | _ => []
  end.

Fixpoint blocks (n : nat) (ws : list Z) : list (list Z) :=
  match n with
  | O => []
  | S n' => firstn 16 ws :: blocks n' (skipn 16 ws)
  end.

(** The message schedule, kept newest word first while it grows:
    W[t] = sigma1 W[t-2] + W[t-7] + sigma0 W[t-15] + W[t-16]. *)
Fixpoint extend (n : nat) (r : list Z) : list Z :=
  match n with
  | O => r
  | S n' =>
      extend n'
        (add32 (add32 (sigma1 (nth 1 r 0)) (nth 6 r 0))
               (add32 (sigma0 (nth 14 r 0)) (nth 15 r 0)) :: r)
  end.

Definition schedule (block : list Z) : list Z := rev (extend 48 (rev block)).

Definition round (s : registers) (kw : Z * Z) : registers :=
  let T1 := add32 (add32 (add32 (rh s) (Sigma1 (re s))) (Ch (re s) (rf s) (rg s)))
                  (add32 (fst kw) (snd kw)) in
  let T2 := add32 (Sigma0 (ra s)) (Maj (ra s) (rb s) (rc s)) in
  mkRegisters (add32 T1 T2) (ra s) (rb s) (rc s) (add32 (rd s) T1) (re s) (rf s) (rg s).

Definition compress (H : registers) (block : list Z) : registers :=
  let s := fold_left round (combine K (schedule block)) H in
  mkRegisters (add32 (ra H) (ra s)) (add32 (rb H) (rb s)) (add32 (rc H) (rc s))
              (add32 (rd H) (rd s)) (add32 (re H) (re s)) (add32 (rf H) (rf s))
              (add32 (rg H) (rg s)) (add32 (rh H) (rh s)).

Definition hash (msg : list byte) : registers :=
  let ws := words (pad (map byteZ msg)) in
  fold_left compress (blocks (Nat.div (List.length ws) 16) ws) H0.

(** The digest: the eight words of the final hash value, big-endian. *)
Definition digest (msg : list byte) : list byte :=
  let H := hash msg in
  map Zbyte (flat_map be32 [ra H; rb H; rc H; rd H; re H; rf H; rg H; rh H]).

End SHA256.

(* ================================================================== *)
(** * The browser platform: files, requests, responses, async code *)
(* ================================================================== *)

Module Web.
Import JS.

(** A [File]: its name, MIME type and bytes; [size] is the byte count. *)
Record File : Type := mkFile {
  name : string;
  type : string;
  content : list byte
}.

Definition size (f : File) : Z := Z.of_nat (List.length (content f)).

Inductive FormDataEntry : Type :=
| FormString (s : string)
| FormFile (f : File).

Inductive BodyInit : Type :=
| BodyText (s : string)
| BodyFormData (entries : list (string * FormDataEntry)).

(** The second argument of [fetch]. *)
Record RequestInit : Type := mkInit {
  method : option string;
  headers : list (string * string);
  body : option BodyInit
}.

(** A [Response]: the status code and what [response.json()] settles
    with (a parsed value, or the SyntaxError of a body that is no JSON). *)
Record Response : Type := mkResponse {
  status : Z;
  json : Outcome value
}.

(** [response.ok]: the status is in the range 200 to 299. *)
Definition ok (r : Response) : bool := ((200 <=? status r) && (status r <=? 299))%Z.

(** UTF-8 bytes of a string of code units below U+0100. *)
Definition utf8_unit (c : ascii) : list byte :=
  let n := N_of_ascii c in
  if (n <? 128)%N then [byte_of_ascii c]
  else [SHA256.Zbyte (Z.of_N (192 + n / 64)); SHA256.Zbyte (Z.of_N (128 + n mod 64))].

Fixpoint utf8 (s : string) : list byte :=
  match s with
  | EmptyString => []
  | String c r => utf8_unit c ++ utf8 r
  end.

(** The application/x-www-form-urlencoded serializer behind
    [URLSearchParams.prototype.toString]. *)
Definition urlencode_byte (b : byte) : string :=
  let n := Byte.to_N b in
  if ((48 <=? n) && (n <=? 57) || (65 <=? n) && (n <=? 90) || (97 <=? n) && (n <=? 122)
      || (n =? 42) || (n =? 45) || (n =? 46) || (n =? 95))%N
  then str1 (ascii_of_byte b)
  else if (n =? 32)%N then "+"
  else
    let up (d : N) := ascii_of_N (if (d <? 10)%N then 48 + d else 55 + d)%N in
    String "%" (String (up (n / 16)%N) (str1 (up (n mod 16)%N))).

Definition urlencode (s : string) : string :=
  String.concat "" (map urlencode_byte (utf8 s)).

Definition URLSearchParams_toString (params : list (string * string)) : string :=
  String.concat "&" (map (fun kv => urlencode (fst kv) ++ "=" ++ urlencode (snd kv)) params).

(** Async code over a world [W]: the outcome and the next world. *)
Definition Async (W A : Type) : Type := W -> Outcome A * W.

Definition ret {W A} (a : A) : Async W A := fun w => (Return a, w).
Definition throw {W A} (e : thrown) : Async W A := fun w => (Throw e, w).

Definition bind {W A B} (m : Async W A) (k : A -> Async W B) : Async W B :=
  fun w => match m w with
           | (Return a, w') => k a w'
           | (Throw e, w') => (Throw e, w')
           end.

(** [try { m } catch (err) { h err }], also [m.catch(h)]. *)
Definition try_catch {W A} (m : Async W A) (h : thrown -> Async W A) : Async W A :=
  fun w => match m w with
           | (Return a, w') => (Return a, w')
           | (Throw e, w') => h e w'
           end.

(** [await] of an operation whose outcome the world no longer affects. *)
Definition settle {W A} (o : Outcome A) : Async W A := fun w => (o, w).

(** What the modules read from their surroundings: the world [fetch]
    acts on, [fetch] itself, and the two build-time variables. *)
Record Env : Type := mkEnv {
  World : Type;
  fetch : string -> RequestInit -> Async World Response;
  VITE_API_URL : option string;
  VITE_SUPABASE_ANON_KEY : option string
}.

(** [import.meta.env.X || fallback]. *)
Definition envOr (x : option string) (fallback : string) : string :=
  match x with
  | Some s => if s =? "" then fallback else s
  | None => fallback
  end.

End Web.

Declare Scope async_scope.
Delimit Scope async_scope with async.
Notation "x <- m ;; k" := (Web.bind m (fun x => k))
  (at level 61, m at next level, right associativity) : async_scope.
Notation "m ;; k" := (Web.bind m (fun _ => k))
  (at level 61, right associativity) : async_scope.

(* ================================================================== *)
(** * services/api.ts *)
(* ================================================================== *)

Module Api.
Import JS Web.
Local Open Scope async_scope.

Section WithEnv.
Variable E : Env.

Definition API_BASE_URL : string :=
  envOr (VITE_API_URL E) "https://iitnfvqesrrninypeuvx.supabase.co/functions/v1".
Definition SUPABASE_ANON_KEY : string := envOr (VITE_SUPABASE_ANON_KEY E) "".

(** [getHeaders]. *)
Definition authHeaders : list (string * string) :=
  if SUPABASE_ANON_KEY =? "" then []
  else [("apikey", SUPABASE_ANON_KEY); ("Authorization", "Bearer " ++ SUPABASE_ANON_KEY)].

Definition getHeaders : list (string * string) :=
  ("Content-Type", "application/json") :: authHeaders.

(** The block every exported function repeats after its [fetch]:
<<
  if (!response.ok) {
    const errorData = await response.json().catch(() => ({}));
    throw new Error(errorData.error || errorData.message
                    || `HTTP error! status: ${response.status}`);
  }
>> *)
Definition throwUnlessOk (response : Response) : Async (World E) unit :=
  if negb (ok response) then
    errorData <- try_catch (settle (json response)) (fun _ => ret (Obj []));;
    e <- settle (get errorData "error");;
    m <- (if truthy e then ret e
          else
            m <- settle (get errorData "message");;
            ret (or_ m (Str ("HTTP error! status: " ++ Number_toString (status response)))));;
    throw (Error_ m)
  else ret tt.

(** and the block that follows it:
<<
  const result = await response.json();
  if (!result.data) { throw new Error('Invalid response: missing data'); }
>> *)
Definition resultWithData (response : Response) : Async (World E) value :=
  result <- settle (json response);;
  data <- settle (get result "data");;
  if negb (truthy data) then throw (Error_ (Str "Invalid response: missing data"))
  else ret result.

(** [return result.data] after the two blocks. *)
Definition dataOf (response : Response) : Async (World E) value :=
  throwUnlessOk response;;
  result <- resultWithData response;;
  ret (prop result "data").

Definition jsonBody (data : value) : option BodyInit :=
  option_map BodyText (JSON.stringify data).

Definition createTruthRecord (data : value) : Async (World E) value :=
  response <- fetch E (API_BASE_URL ++ "/create-record")
                (mkInit (Some "POST") getHeaders (jsonBody data));;
  dataOf response.

Definition getTruthRecord (recordId : string) : Async (World E) value :=
  response <- fetch E (API_BASE_URL ++ "/get-record?id=" ++ recordId)
                (mkInit None getHeaders None);;
  dataOf response.

Definition verifyRecord (recordId : string) : Async (World E) value :=
  response <- fetch E (API_BASE_URL ++ "/verify-record?id=" ++ recordId)
                (mkInit None getHeaders None);;
  dataOf response.

Definition getPublicKey : Async (World E) value :=
  response <- fetch E (API_BASE_URL ++ "/public-key") (mkInit None getHeaders None);;
  dataOf response.

Definition getVerificationBundle (recordId : string) : Async (World E) value :=
  response <- fetch E (API_BASE_URL ++ "/verification-bundle?id=" ++ recordId)
                (mkInit None getHeaders None);;
  dataOf response.

Definition createMemoryRecord (data : value) : Async (World E) value :=
  response <- fetch E (API_BASE_URL ++ "/create-memory")
                (mkInit (Some "POST") getHeaders (jsonBody data));;
  dataOf response.

Definition getMemoryRecord (memoryId : string) : Async (World E) value :=
  response <- fetch E (API_BASE_URL ++ "/get-memory?id=" ++ memoryId)
                (mkInit None getHeaders None);;
  dataOf response.

(** [listMemoryRecords(ownerId, page = 1, limit = 20)] returns the whole
    result ([data] and [meta]), not [result.data]. *)
Definition listMemoryRecords (ownerId : string) (page limit : option number)
  : Async (World E) value :=
  let page : number := match page with Some p => p | None => "1" end in
  let limit : number := match limit with Some l => l | None => "20" end in
  let params := URLSearchParams_toString
                  [("ownerId", ownerId); ("page", page); ("limit", limit)] in
  response <- fetch E (API_BASE_URL ++ "/list-memories?" ++ params)
                (mkInit None getHeaders None);;
  throwUnlessOk response;;
  resultWithData response.

Definition updateMemoryRecord (id : string) (data : value) : Async (World E) value :=
  response <- fetch E (API_BASE_URL ++ "/update-memory?id=" ++ id)
                (mkInit (Some "PUT") getHeaders (jsonBody data));;
  dataOf response.

Definition uploadFile (file : File) (ownerId recordId : string) : Async (World E) value :=
  let formData := [("file", FormFile file); ("ownerId", FormString ownerId);
                   ("recordId", FormString recordId)] in
  response <- fetch E (API_BASE_URL ++ "/upload")
                (mkInit (Some "POST") authHeaders (Some (BodyFormData formData)));;
  dataOf response.

Definition uploadMultipleFiles (files : list File) (ownerId recordId : string)
  : Async (World E) value :=
  let formData := (map (fun file => ("files", FormFile file)) files
                   ++ [("ownerId", FormString ownerId); ("recordId", FormString recordId)])%list in
  response <- fetch E (API_BASE_URL ++ "/upload-multiple")
                (mkInit (Some "POST") authHeaders (Some (BodyFormData formData)));;
  dataOf response.

End WithEnv.
End Api.

(* ================================================================== *)
(** * services/api-edge.ts *)
(* ================================================================== *)

Module ApiEdge.
Import JS Web.
Local Open Scope async_scope.

Section WithEnv.
Variable E : Env.

Definition API_BASE_URL : string :=
  envOr (VITE_API_URL E) "https://iitnfvqesrrninypeuvx.supabase.co/functions/v1".
Definition SUPABASE_ANON_KEY : string := envOr (VITE_SUPABASE_ANON_KEY E) "".

Definition getHeaders : list (string * string) :=
  ("Content-Type", "application/json")
  :: (if SUPABASE_ANON_KEY =? "" then []
      else [("apikey", SUPABASE_ANON_KEY); ("Authorization", "Bearer " ++ SUPABASE_ANON_KEY)]).

(** [getTruthRecord(id)]. *)
Definition getTruthRecord (id : string) : Async (World E) value :=
  response <- fetch E (API_BASE_URL ++ "/get-record?id=" ++ id)
                (mkInit (Some "GET") getHeaders None);;
  if negb (ok response) then
    if (status response =? 404)%Z then throw (Error_ (Str "Record not found"))
    else
      error <- try_catch (settle (json response))
                 (fun _ => ret (Obj [("error", Str "Unknown error")]));;
      e <- settle (get error "error");;
      throw (Error_ (or_ e (Str ("HTTP " ++ Number_toString (status response)))))
  else
    result <- settle (json response);;
    settle (get result "data").

(** The block the other functions of api-edge.ts open with:
<<
  if (!response.ok) {
    const error = await response.json().catch(() => ({ error: 'Unknown error' }));
    throw new Error(error.error || `HTTP ${response.status}`);
  }
>> *)
Definition throwUnlessOk (response : Response) : Async (World E) unit :=
  if negb (ok response) then
    error <- try_catch (settle (json response))
               (fun _ => ret (Obj [("error", Str "Unknown error")]));;
    e <- settle (get error "error");;
    throw (Error_ (or_ e (Str ("HTTP " ++ Number_toString (status response)))))
  else ret tt.

(** [const result = await response.json(); return result.data;] *)
Definition dataOf (response : Response) : Async (World E) value :=
  throwUnlessOk response;;
  result <- settle (json response);;
  settle (get result "data").

(** [return await response.json();] *)
Definition wholeOf (response : Response) : Async (World E) value :=
  throwUnlessOk response;;
  settle (json response).

(** The headers of the upload functions:
    [{ ...(SUPABASE_ANON_KEY && { apikey, Authorization }) }]. *)
Definition uploadHeaders : list (string * string) :=
  if SUPABASE_ANON_KEY =? "" then []
  else [("apikey", SUPABASE_ANON_KEY); ("Authorization", "Bearer " ++ SUPABASE_ANON_KEY)].

Definition jsonBody (data : value) : option BodyInit :=
  option_map BodyText (JSON.stringify data).

Definition createTruthRecord (data : value) : Async (World E) value :=
  response <- fetch E (API_BASE_URL ++ "/create-record")
                (mkInit (Some "POST") getHeaders (jsonBody data));;
  dataOf response.

Definition verifyRecord (id : string) : Async (World E) value :=
  response <- fetch E (API_BASE_URL ++ "/verify-record?id=" ++ id)
                (mkInit (Some "GET") getHeaders None);;
  dataOf response.

Definition getPublicKey : Async (World E) value :=
  response <- fetch E (API_BASE_URL ++ "/public-key") (mkInit (Some "GET") getHeaders None);;
  dataOf response.

Definition getVerificationBundle (id : string) : Async (World E) value :=
  response <- fetch E (API_BASE_URL ++ "/verification-bundle?id=" ++ id)
                (mkInit (Some "GET") getHeaders None);;
  dataOf response.

Definition uploadFile (file : File) (ownerId recordId : string) : Async (World E) value :=
  let formData := [("file", FormFile file); ("ownerId", FormString ownerId);
                   ("recordId", FormString recordId)] in
  response <- fetch E (API_BASE_URL ++ "/upload")
                (mkInit (Some "POST") uploadHeaders (Some (BodyFormData formData)));;
  dataOf response.

Definition uploadMultipleFiles (files : list File) (ownerId recordId : string)
  : Async (World E) value :=
  let formData := (map (fun file => ("files", FormFile file)) files
                   ++ [("ownerId", FormString ownerId); ("recordId", FormString recordId)])%list in
  response <- fetch E (API_BASE_URL ++ "/upload-multiple")
                (mkInit (Some "POST") uploadHeaders (Some (BodyFormData formData)));;
  dataOf response.

Definition createMemoryRecord (data : value) : Async (World E) value :=
  response <- fetch E (API_BASE_URL ++ "/create-memory")
                (mkInit (Some "POST") getHeaders (jsonBody data));;
  dataOf response.

Definition getMemoryRecord (id : string) : Async (World E) value :=
  response <- fetch E (API_BASE_URL ++ "/get-memory?id=" ++ id)
                (mkInit (Some "GET") getHeaders None);;
  dataOf response.

(** [listMemoryRecords(ownerId, page = 1, limit = 20)]: the arguments go
    into the query as they are. *)
Definition listQuery (ownerId : string) (page limit : option number) : string :=
  let page : number := match page with Some p => p | None => "1" end in
  let limit : number := match limit with Some l => l | None => "20" end in
  "ownerId=" ++ ownerId ++ "&page=" ++ page ++ "&limit=" ++ limit.

Definition listMemoryRecords (ownerId : string) (page limit : option number)
  : Async (World E) value :=
  response <- fetch E (API_BASE_URL ++ "/list-memories?" ++ listQuery ownerId page limit)
                (mkInit (Some "GET") getHeaders None);;
  wholeOf response.

Definition updateMemoryRecord (id : string) (data : value) : Async (World E) value :=
  response <- fetch E (API_BASE_URL ++ "/update-memory?id=" ++ id)
                (mkInit (Some "PUT") getHeaders (jsonBody data));;
  dataOf response.

Definition createMilestone (data : value) : Async (World E) value :=
  response <- fetch E (API_BASE_URL ++ "/create-milestone")
                (mkInit (Some "POST") getHeaders (jsonBody data));;
  dataOf response.

Definition getMilestone (id : string) : Async (World E) value :=
  response <- fetch E (API_BASE_URL ++ "/get-milestone?id=" ++ id)
                (mkInit (Some "GET") getHeaders None);;
  dataOf response.

Definition listMilestones (ownerId : string) (page limit : option number)
  : Async (World E) value :=
  response <- fetch E (API_BASE_URL ++ "/list-milestones?" ++ listQuery ownerId page limit)
                (mkInit (Some "GET") getHeaders None);;
  wholeOf response.

Definition updateMilestone (id : string) (data : value) : Async (World E) value :=
  response <- fetch E (API_BASE_URL ++ "/update-milestone?id=" ++ id)
                (mkInit (Some "PUT") getHeaders (jsonBody data));;
  dataOf response.

End WithEnv.
End ApiEdge.

(* ================================================================== *)
(** * components/FileUpload.tsx *)
(* ================================================================== *)

Module FileUpload.
Import JS Web.

Record FileWithHash : Type := mkFileWithHash {
  file : File;
  hash : string;
  preview : option string;
  uploadProgress : option Z;
  uploaded : option bool;
  error : option string
}.

(** [calculateFileHash]: what the call resolves with, the SHA-256 digest
    of the file's bytes, each byte as [b.toString(16).padStart(2, '0')],
    joined. *)
Definition calculateFileHash (file : File) : string :=
  let arrayBuffer := content file in
  let hashBuffer := SHA256.digest arrayBuffer in
  let hashArray := hashBuffer in
  let hashHex :=
    String.concat ""
      (map (fun b => padStart 2 "0"%char (Number_toString16 (Byte.to_N b))) hashArray) in
  hashHex.

(** What the component tells its surroundings. *)
Inductive Effect : Type :=
| Alert (text : string)
| SetIsProcessing (b : bool)
| OnFilesChange (files : list FileWithHash).

(** A promise as [Promise.all] finds it: rejected already (the async
    callback threw before its first [await]), rejecting later, at some
    time, or resolving. *)
Inductive Promise (A : Type) : Type :=
| Rejected (e : thrown)
| RejectsAt (time : nat) (e : thrown)
| Resolves (a : A).
Arguments Rejected {A} e.
Arguments RejectsAt {A} time e.
Arguments Resolves {A} a.

(** The first promise in index order that is rejected already. *)
Fixpoint firstRejected {A : Type} (ps : list (Promise A)) : option thrown :=
  match ps with
  | [] => None
  | Rejected e :: _ => Some e
  | _ :: rest => firstRejected rest
  end.

(** The earliest of the later rejections, the first in index order among
    those of one time. *)
Fixpoint earliestRejection {A : Type} (ps : list (Promise A)) : option (nat * thrown) :=
  match ps with
  | [] => None
  | RejectsAt time e :: rest =>
      match earliestRejection rest with
      | Some (time', e') => if (time' <? time)%nat then Some (time', e') else Some (time, e)
      | None => Some (time, e)
      end
  | _ :: rest => earliestRejection rest
  end.

Fixpoint resolved {A : Type} (ps : list (Promise A)) : list A :=
  match ps with
  | [] => []
  | Resolves a :: rest => a :: resolved rest
  | _ :: rest => resolved rest
  end.

(** [await Promise.all(ps)]: it rejects with the first rejection that
    happens, and the promises rejected already come before every later
    rejection; with no rejection it resolves with every result. *)
Definition promiseAll {A : Type} (ps : list (Promise A)) : Outcome (list A) :=
  match firstRejected ps with
  | Some e => Throw e
  | None =>
      match earliestRejection ps with
      | Some (_, e) => Throw e
      | None => Return (resolved ps)
      end
  end.

Section Component.

(** [FileReader.readAsDataURL]: the data URL, or nothing when the reader
    fails; and the text of the quotient [maxSize / 1024 / 1024]. *)
Variable readAsDataURL : File -> option string.
Variable megabytes : Z -> string.

(** [calculateFileHash(file)] on a file the platform cannot read or
    digest ([file.arrayBuffer()] rejects for a dropped directory or a
    file that is gone, [crypto.subtle] is undefined outside a secure
    context): the time of the rejection and what is thrown; nothing for
    a file whose call resolves. *)
Variable hashRejection : File -> option (nat * thrown).

(** The props: [maxFiles = 10], [maxSize = 100 * 1024 * 1024] by default. *)
Variable files : list FileWithHash.
Variable maxFiles : Z.
Variable maxSize : Z.
Variable acceptedTypes : option (list string).

(** [generatePreview]. *)
Definition generatePreview (f : File) : option string :=
  if prefix "image/" (type f) then readAsDataURL f else None.

Definition includes (l : list string) (s : string) : bool :=
  existsb (fun x => x =? s) l.

(** The callback [processFiles] maps over the batch: the two checks
    throw before the first [await]; the hash and the preview are awaited
    together, and the preview never rejects. *)
Definition processOne (f : File) : Promise FileWithHash :=
  if (size f >? maxSize)%Z then
    Rejected (Error_ (Str (name f ++ " exceeds maximum size of " ++ megabytes maxSize ++ "MB")))
  else if match acceptedTypes with
          | Some types => negb (includes types (type f))
          | None => false
          end then
    Rejected (Error_ (Str (name f ++ " has unsupported file type")))
  else
    match hashRejection f with
    | Some (time, e) => RejectsAt time e
    | None =>
        Resolves (mkFileWithHash f (calculateFileHash f) (generatePreview f)
                    (Some 0%Z) (Some false) None)
    end.

(** [processFiles(fileList)]. *)
Definition processFiles (fileList : list File) : list Effect :=
  let fileArray := fileList in
  if (Z.of_nat (List.length files) + Z.of_nat (List.length fileArray) >? maxFiles)%Z then
    [Alert ("Maximum " ++ Number_toString maxFiles ++ " files allowed")]
  else
    (SetIsProcessing true
     :: match promiseAll (map processOne fileArray) with
        | Return processedFiles => [OnFilesChange (files ++ processedFiles)%list]
        | Throw err => [Alert (messageOr "Failed to process files" err)]
        end
     ++ [SetIsProcessing false])%list.

(** [files.filter((_, i) => i !== index)], the index counted from [i]. *)
Fixpoint withoutIndex {A : Type} (index i : Z) (l : list A) : list A :=
  match l with
  | [] => []
  | x :: rest =>
      if negb (i =? index)%Z then x :: withoutIndex index (i + 1)%Z rest
      else withoutIndex index (i + 1)%Z rest
  end.

(** [removeFile(index)]. *)
Definition removeFile (index : Z) : list Effect :=
  let newFiles := withoutIndex index 0%Z files in
  [OnFilesChange newFiles].

End Component.

(** The arguments of the calls of [onFilesChange] among some effects. *)
Definition onFilesChangeCalls (effects : list Effect) : list (list FileWithHash) :=
  flat_map (fun e => match e with OnFilesChange l => [l] | _ => [] end) effects.

End FileUpload.

(* ================================================================== *)
(** * components/CreateRecordForm.tsx *)
(* ================================================================== *)

Module CreateRecordForm.
Import JS Web.

(** The form's state. *)
Record FormData : Type := mkFormData {
  title : string;
  content : string;
  eventTimestamp : string;
  description : string;
  tags : string
}.

(** [errors]: one optional message per validated field. *)
Record Errors : Type := mkErrors {
  titleError : option string;
  contentError : option string;
  eventTimestampError : option string
}.

Record AttachmentMetadata : Type := mkAttachment {
  filename : string;
  mimeType : string;
  attachmentSize : Z;
  attachmentHash : string
}.

(** [CreateRecordFormData], what [onSubmit] receives. *)
Record CreateRecordFormData : Type := mkSubmission {
  submittedTitle : string;
  submittedContent : string;
  submittedEventTimestamp : string;
  submittedDescription : option string;
  submittedTags : option (list string);
  attachmentMetadata : option (list AttachmentMetadata)
}.

Inductive Effect : Type :=
| PreventDefault
| SetErrors (errors : Errors)
| OnSubmit (data : CreateRecordFormData)
| Uncaught (e : thrown).

(** [s.split(',')]. *)
Fixpoint split (sep : ascii) (s : string) : list string :=
  match s with
  | EmptyString => [EmptyString]
  | String c r =>
      if Ascii.eqb c sep then EmptyString :: split sep r
      else match split sep r with
           | h :: t => String c h :: t
           | [] => [str1 c]
           end
  end.

Definition newErrors (formData : FormData) : Errors :=
  mkErrors
    (if trim (title formData) =? "" then Some "Title is required"
     else if (JS.length (title formData) >? 500)%Z
          then Some "Title must be 500 characters or less"
          else None)
    (if trim (content formData) =? "" then Some "Content is required"
     else if (JS.length (content formData) >? 10000000)%Z
          then Some "Content must be 10,000,000 characters or less"
          else None)
    (if eventTimestamp formData =? "" then Some "Event timestamp is required" else None).

(** [Object.keys(newErrors).length === 0]. *)
Definition noErrors (e : Errors) : bool :=
  match titleError e, contentError e, eventTimestampError e with
  | None, None, None => true
  | _, _, _ => false
  end.

(** [validate()]: the errors it stores and its result. *)
Definition validate (formData : FormData) : Errors * bool :=
  (newErrors formData, noErrors (newErrors formData)).

Section Component.

(** The platform's [Date]: the time value a string parses to (nothing
    for an invalid date) and [toISOString] of a time value. *)
Variable Date_parse : string -> option Z.
Variable Date_toISOString : Z -> string.

Definition newDate_toISOString (s : string) : Outcome string :=
  match Date_parse s with
  | Some t => Return (Date_toISOString t)
  | None => Throw (ErrorInstance "RangeError" "Invalid time value")
  end.

(** [handleSubmit(e)] with the attached [files]. *)
Definition handleSubmit (formData : FormData) (files : list FileUpload.FileWithHash)
  : list Effect :=
  PreventDefault
  :: SetErrors (fst (validate formData))
  :: if negb (snd (validate formData)) then []
     else
       match newDate_toISOString (eventTimestamp formData) with
       | Throw e => [Uncaught e]
       | Return eventTimestamp =>
           let tags :=
             if tags formData =? "" then []
             else filter (fun t => negb (t =? "")) (map trim (split "," (tags formData))) in
           let attachmentMetadata :=
             match files with
             | [] => None
             | _ => Some (map (fun f => mkAttachment (name (FileUpload.file f))
                                          (type (FileUpload.file f))
                                          (size (FileUpload.file f))
                                          (FileUpload.hash f)) files)
             end in
           [OnSubmit (mkSubmission
                        (trim (title formData))
                        (trim (content formData))
                        eventTimestamp
                        (if trim (description formData) =? "" then None
                         else Some (trim (description formData)))
                        (match tags with [] => None | _ => Some tags end)
                        attachmentMetadata)]
       end.

End Component.

(** Whether some effects contain a call of [onSubmit]. *)
Definition invokesOnSubmit (effects : list Effect) : bool :=
  existsb (fun e => match e with OnSubmit _ => true | _ => false end) effects.

(** The submit button's [disabled]:
    [isSubmitting || files.some((f) => !f.hash)]. *)
Definition submitDisabled (isSubmitting : bool) (files : list FileUpload.FileWithHash) : bool :=
  isSubmitting || existsb (fun f => FileUpload.hash f =? "") files.

End CreateRecordForm.

(* ================================================================== *)
(** * pages/VerifyRecord.tsx *)
(* ================================================================== *)

Module VerifyRecord.
Import JS Web.
Local Open Scope async_scope.

(** The state [verificationResult] holds. *)
Record Verdict : Type := mkVerdict {
  isValid : value;
  integrityValid : value;
  signatureValid : value;
  timestampValid : value;
  message : value
}.

(** The part of the component's state the handlers below touch; [Null]
    stands for a state that holds [null]. *)
Record State : Type := mkState {
  record : value;
  publicKey : value;
  verificationBundle : value;
  verificationResult : option Verdict;
  isVerifying : bool
}.

Definition setIsVerifying (b : bool) (s : State) : State :=
  mkState (record s) (publicKey s) (verificationBundle s) (verificationResult s) b.

Definition setVerificationResult (v : option Verdict) (s : State) : State :=
  mkState (record s) (publicKey s) (verificationBundle s) v (isVerifying s).

Section WithEnv.
Variable E : Env.

(** The [try] block of [handleVerify] and its [catch]. *)
Definition verdictOf (recordId : string) : Async (World E) Verdict :=
  try_catch
    (result <- Api.verifyRecord E recordId;;
     isValid <- settle (get result "isValid");;
     integrityValid <- settle (get result "integrityValid");;
     signatureValid <- settle (get result "signatureValid");;
     timestampValid <- settle (get result "timestampValid");;
     message <- settle (get result "message");;
     ret (mkVerdict isValid integrityValid signatureValid timestampValid message))
    (fun err =>
       ret (mkVerdict (Bool false) (Bool false) (Bool false) Null
              (Str (messageOr "Verification failed" err)))).

(** [handleVerify()], with [recordId] from the route ([None]: no such
    parameter). *)
Definition handleVerify (recordId : option string) (s : State)
  : World E -> State * World E :=
  fun w =>
    match recordId with
    | None => (s, w)
    | Some id =>
        if id =? "" then (s, w)
        else
          let s := setVerificationResult None (setIsVerifying true s) in
          match verdictOf id w with
          | (Return v, w') => (setIsVerifying false (setVerificationResult (Some v) s), w')
          | (Throw _, w') => (setIsVerifying false s, w')
          end
    end.

(** The state the loading effect touches: the record, the public key and
    the bundle ([Null] while there is none), the loading flag and the
    error text. *)
Record Loaded : Type := mkLoaded {
  loadedRecord : value;
  loadedPublicKey : value;
  loadedBundle : value;
  isLoading : bool;
  error : option string
}.

Definition initialLoaded : Loaded := mkLoaded Null Null Null true None.

(** [fetchData()]: the three calls of [Promise.all] issue their requests
    in order; the bundle call is wrapped in [.catch(() => null)].  When
    both the record call and the key call reject, [keySettlesFirst] says
    which rejection reaches [Promise.all] first. *)
Definition fetchData (keySettlesFirst : bool) (recordId : string) (s : Loaded)
  : World E -> Loaded * World E :=
  fun w0 =>
    let (recordCall, w1) := Api.getTruthRecord E recordId w0 in
    let (keyCall, w2) := Api.getPublicKey E w1 in
    let (bundleCall, w3) :=
      try_catch (Api.getVerificationBundle E recordId) (fun _ => ret Null) w2 in
    let failed (err : thrown) :=
      mkLoaded (loadedRecord s) (loadedPublicKey s) (loadedBundle s) false
        (Some (messageOr "Failed to load record" err)) in
    (match recordCall, keyCall, bundleCall with
     | Return recordData, Return publicKeyData, Return bundleData =>
         mkLoaded recordData publicKeyData bundleData false (error s)
     | Throw err, Return _, _ => failed err
     | Return _, Throw err, _ => failed err
     | Throw recordErr, Throw keyErr, _ =>
         failed (if keySettlesFirst then keyErr else recordErr)
     | Return _, Return _, Throw err => failed err
     end, w3).

(** The effect on [recordId]. *)
Definition loadPage (keySettlesFirst : bool) (recordId : option string) (s : Loaded)
  : World E -> Loaded * World E :=
  fun w =>
    match recordId with
    | Some id =>
        if id =? "" then
          (mkLoaded (loadedRecord s) (loadedPublicKey s) (loadedBundle s) false
             (Some "Record ID is required"), w)
        else fetchData keySettlesFirst id s w
    | None =>
        (mkLoaded (loadedRecord s) (loadedPublicKey s) (loadedBundle s) false
           (Some "Record ID is required"), w)
    end.

End WithEnv.

(** Step 1 of the independent verification: the text shown as the
    content the hash is computed from. *)
Definition sealableContentShown (record : value) : option string :=
  JSON.stringify2
    (Obj ([("id", prop record "id");
           ("ownerId", prop record "ownerId");
           ("title", prop record "title");
           ("content", prop record "content");
           ("eventTimestamp", prop record "eventTimestamp")]
          ++ spreadWhen (prop record "location") "location" (prop record "location"))%list).

(** The object exported when no verification bundle was loaded. *)
Definition exportFallback (record publicKey : value) : value :=
  Obj ([("id", prop record "id");
        ("ownerId", prop record "ownerId");
        ("title", prop record "title");
        ("content", prop record "content");
        ("eventTimestamp", prop record "eventTimestamp");
        ("sealedTimestamp", prop record "sealedTimestamp");
        ("contentHash", prop record "contentHash");
        ("signature", prop record "signature");
        ("version", prop record "version");
        ("status", prop record "status");
        ("sealingVersion", prop record "sealingVersion")]
       ++ spreadWhen (prop record "location") "location" (prop record "location")
       ++ spreadWhen publicKey "publicKey" (prop publicKey "publicKeyPEM")
       ++ spreadWhen (prop record "timestampProof") "timestampProof"
            (prop record "timestampProof"))%list.

(** The object of the export panel, and its text. *)
Definition exported (s : State) : value :=
  if truthy (verificationBundle s) then verificationBundle s
  else exportFallback (record s) (publicKey s).

Definition exportShown (s : State) : option string :=
  JSON.stringify2 (exported s).

(** What a render of the component gives: the loading notice, the error
    box with its text ([error || 'Record not found']), what the render
    throws, or the record's markup with the two timestamps as it prints
    them.  Of the markup the model keeps its first expressions that can
    throw while the component function runs, the two timestamps of the
    Timestamps section; what React makes of the markup's children is not
    modelled.  A render that throws leaves nothing on the page: there is
    no error boundary. *)
Inductive View : Type :=
| LoadingView
| ErrorView (text : string)
| RenderThrows (e : thrown)
| RecordView (eventTimestamp sealedTimestamp : string).

Definition errorIsSet (s : Loaded) : bool :=
  match error s with
  | Some text => negb (text =? "")
  | None => false
  end.

Section Render.

(** The platform's [Date]: the time value a string parses to (nothing
    for an invalid date), the time value of a value that is neither a
    string nor [undefined] (nothing for an invalid date), and
    [toISOString] of a time value. *)
Variable Date_parse : string -> option Z.
Variable Date_ofValue : value -> option Z.
Variable Date_toISOString : Z -> string.

(** [new Date(v).toISOString()]: [new Date(undefined)] is an invalid
    date, and [toISOString] of an invalid date throws a RangeError. *)
Definition newDate_toISOString (v : value) : Outcome string :=
  match (match v with
         | Undefined => None
         | Str s => Date_parse s
         | _ => Date_ofValue v
         end) with
  | Some t => Return (Date_toISOString t)
  | None => Throw (ErrorInstance "RangeError" "Invalid time value")
  end.

Definition view (s : Loaded) : View :=
  if isLoading s then LoadingView
  else if errorIsSet s || negb (truthy (loadedRecord s)) then
    ErrorView (match error s with
               | Some text => if text =? "" then "Record not found" else text
               | None => "Record not found"
               end)
  else
    match newDate_toISOString (prop (loadedRecord s) "eventTimestamp") with
    | Throw e => RenderThrows e
    | Return eventTimestamp =>
        match newDate_toISOString (prop (loadedRecord s) "sealedTimestamp") with
        | Throw e => RenderThrows e
        | Return sealedTimestamp => RecordView eventTimestamp sealedTimestamp
        end
    end.

End Render.

End VerifyRecord.

(* ================================================================== *)
(** * pages/CreateRecord.tsx *)
(* ================================================================== *)

Module CreateRecordPage.
Import JS Web.

Inductive Stage : Type := Form | Loading | Success | Failed.

(** The component's state: [state], [record] ([Null] for none) and
    [error]. *)
Record State : Type := mkState {
  stage : Stage;
  record : value;
  error : option string
}.

(** The object [handleSubmit] passes to [createTruthRecord]. *)
Definition attachmentValue (a : CreateRecordForm.AttachmentMetadata) : value :=
  Obj [("filename", Str (CreateRecordForm.filename a));
       ("mimeType", Str (CreateRecordForm.mimeType a));
       ("size", Num (Number_toString (CreateRecordForm.attachmentSize a)));
       ("hash", Str (CreateRecordForm.attachmentHash a))].

Definition requestOf (formData : CreateRecordForm.CreateRecordFormData) : value :=
  Obj [("title", Str (CreateRecordForm.submittedTitle formData));
       ("content", Str (CreateRecordForm.submittedContent formData));
       ("eventTimestamp", Str (CreateRecordForm.submittedEventTimestamp formData));
       ("description",
        match CreateRecordForm.submittedDescription formData with
        | Some d => Str d
        | None => Undefined
        end);
       ("tags",
        match CreateRecordForm.submittedTags formData with
        | Some tags => Arr (map Str tags)
        | None => Undefined
        end);
       ("attachmentMetadata",
        match CreateRecordForm.attachmentMetadata formData with
        | Some l => Arr (map attachmentValue l)
        | None => Undefined
        end)].

Section WithEnv.
Variable E : Env.

(** [handleSubmit(formData)]: the state it ends in, the route the
    redirect timer is set for (if any), and the next world. *)
Definition handleSubmit (formData : CreateRecordForm.CreateRecordFormData) (s : State)
  : World E -> (State * option string) * World E :=
  fun w =>
    let s := mkState Loading (record s) None in
    match Api.createTruthRecord E (requestOf formData) w with
    | (Return createdRecord, w') =>
        ((mkState Success createdRecord (error s),
          Some ("/verify/" ++ ToString (prop createdRecord "id"))), w')
    | (Throw err, w') =>
        ((mkState Failed (record s) (Some (messageOr "Failed to create record" err)),
          None), w')
    end.

End WithEnv.

(** [handleCreateAnother()]. *)
Definition handleCreateAnother (s : State) : State := mkState Form Null None.

(** What a render of the page gives: the form, the sealing notice, the
    error card with its text, the success block (RecordVerification for
    the record, and the success card), an empty container when the state
    is success and there is no record, or nothing at all when
    RecordVerification throws while it renders (there is no error
    boundary, React unmounts the page). *)
Inductive View : Type :=
| FormView
| LoadingView
| ErrorView (text : string)
| SuccessView
| Nothing
| Unmounted (e : thrown).

Section Render.

(** The render of the RecordVerification component for a record: it
    returns, or it throws (it reads the record's tags and prints the
    record's timestamps with [new Date(...).toISOString()]). *)
Variable RecordVerification : value -> Outcome unit.

Definition view (s : State) : View :=
  match stage s with
  | Form => FormView
  | Loading => LoadingView
  | Failed =>
      ErrorView (match error s with
                 | Some text =>
                     if text =? "" then "An error occurred while creating the record."
                     else text
                 | None => "An error occurred while creating the record."
                 end)
  | Success =>
      if truthy (record s) then
        match RecordVerification (record s) with
        | Return _ => SuccessView
        | Throw e => Unmounted e
        end
      else Nothing
  end.

End Render.

End CreateRecordPage.

(* ================================================================== *)
(** * The sealing and verification engine behind the endpoints *)
(* ================================================================== *)

(** The functions the endpoints create-record and verify-record run are
    not among the front end's sources; this module follows sections 3, 4
    and 6 of the specification. *)
Module Engine.
Import JS Web.

(** Modelled from the spec: SealableContent (section 3), the backend's
    record type that is missing from the sources: identifier, owner
    identifier, title, body content, event timestamp and optional
    geolocation. *)
Record SealableContent : Type := mkContent {
  id : string;
  ownerId : string;
  title : string;
  content : string;
  eventTimestamp : string;
  location : option value
}.

Definition isDigit (c : ascii) : bool :=
  ((48 <=? N_of_ascii c) && (N_of_ascii c <=? 57))%N.

(** Modelled from the spec: the Canonicalizer's timestamp rule (section
    3, rule 4), missing from the sources: fixed-format ISO-8601 with
    millisecond precision and a literal UTC designator,
    YYYY-MM-DDTHH:mm:ss.sssZ. *)
Definition isCanonicalTimestamp (s : string) : bool :=
  match list_ascii_of_string s with
  | [y1; y2; y3; y4; d1; m1; m2; d2; a1; a2; t; h1; h2; c1; n1; n2; c2; s1; s2; p; f1; f2; f3; z] =>
      forallb isDigit [y1; y2; y3; y4; m1; m2; a1; a2; h1; h2; n1; n2; s1; s2; f1; f2; f3]
      && (String d1 (String d2 (String t (String c1 (String c2 (String p (str1 z)))))) =? "--T::.Z")
  | _ => false
  end.

(** Modelled from the spec: the Canonicalizer's well-formedness check
    (section 4.1), missing from the sources: content missing a required
    field or carrying an invalid timestamp is rejected. *)
Definition wellFormed (c : SealableContent) : bool :=
  negb (id c =? "") && negb (ownerId c =? "") && negb (title c =? "")
  && negb (content c =? "") && isCanonicalTimestamp (eventTimestamp c).

Fixpoint insertProp (p : string * value) (l : list (string * value))
  : list (string * value) :=
  match l with
  | [] => [p]
  | q :: r => if String.leb (fst p) (fst q) then p :: l else q :: insertProp p r
  end.

Definition sortProps (l : list (string * value)) : list (string * value) :=
  fold_right insertProp [] l.

(** Modelled from the spec: the Canonicalizer's key order (section 3,
    rule 2), missing from the sources: object keys sorted
    lexicographically at every nesting level. *)
Fixpoint sortKeys (v : value) : value :=
  match v with
  | Obj props =>
      Obj (sortProps (map (fun kx => match kx with (k, x) => (k, sortKeys x) end) props))
  | Arr elems => Arr (map sortKeys elems)
  | _ => v
  end.

(** The object of the sealable fields, the defined ones only. *)
Definition sealableValue (c : SealableContent) : value :=
  Obj ([("id", Str (id c)); ("ownerId", Str (ownerId c)); ("title", Str (title c));
        ("content", Str (content c)); ("eventTimestamp", Str (eventTimestamp c))]
       ++ optional "location" (fun l => l) (location c))%list.

(** Modelled from the spec: [canonicalize] (sections 3 and 4.1), missing
    from the sources: the defined fields, keys sorted at every level,
    serialized with no insignificant whitespace; [None] is the
    InvalidContent error. *)
Definition canonicalize (c : SealableContent) : option string :=
  if wellFormed c then JSON.stringify (sortKeys (sealableValue c)) else None.

Definition hex (bs : list byte) : string :=
  String.concat "" (map (fun b => padStart 2 "0"%char (Number_toString16 (Byte.to_N b))) bs).

(** Modelled from the spec: [digest] (section 4.2), missing from the
    sources: the 256-bit hash of the canonical form's UTF-8 bytes, SHA-256
    as the verification page names it, in hexadecimal. *)
Definition digest (canonical : string) : string := hex (SHA256.digest (utf8 canonical)).

(** Modelled from the spec: SealedRecord (section 3), missing from the
    sources. *)
Record SealedRecord : Type := mkSealed {
  sealed : SealableContent;
  contentHash : string;
  signature : string;
  sealingVersion : string;
  publicKeyVersion : string;
  sealedTimestamp : string;
  timestampProof : option string;
  status : string
}.

(** Modelled from the spec: VerificationVerdict (section 3), missing
    from the sources; the timestamp validity is nullable. *)
Record VerificationVerdict : Type := mkVerdict {
  isValid : bool;
  integrityValid : bool;
  signatureValid : bool;
  timestampValid : option bool;
  message : string
}.

Inductive SealError : Type := InvalidContent | SigningUnavailable.

Section Primitives.

(** The signature scheme and the time authority the engine calls
    (sections 4.3 and 4.4): [sign] and [verifySignature] over a digest,
    [attest] (which may fail) and [verifyAttestation]. *)
Variable sign : string -> string -> string.
Variable verifySignature : string -> string -> string -> bool.
Variable attest : string -> option string.
Variable verifyAttestation : string -> string -> bool.

(** Modelled from the spec: the Sealing Orchestrator (section 4.5),
    missing from the sources: canonicalize, digest, sign, best-effort
    attest, assign the versions and the sealed timestamp.  [privateKey]
    is the signer's key when it is accessible. *)
Definition seal (sealingVersion keyVersion : string) (privateKey : option string)
    (now : string) (c : SealableContent) : SealError + SealedRecord :=
  match canonicalize c with
  | None => inl InvalidContent
  | Some canonical =>
      match privateKey with
      | None => inl SigningUnavailable
      | Some key =>
          let d := digest canonical in
          inr (mkSealed c d (sign d key) sealingVersion keyVersion now (attest d) "SEALED")
      end
  end.

Fixpoint resolveKey (keyVersion : string) (trustedPublicKeys : list (string * string))
  : option string :=
  match trustedPublicKeys with
  | [] => None
  | (v, k) :: rest => if v =? keyVersion then Some k else resolveKey keyVersion rest
  end.

(** Modelled from the spec: the Verifier (section 4.6), missing from the
    sources.  Integrity compares the recomputed digest with the stored
    one; the signature is checked over the recomputed digest with the
    key the record's key version resolves to; a present timestamp proof
    is checked against the recomputed digest, an absent one leaves the
    timestamp validity null; the record is valid when integrity and
    signature hold and no present proof fails.  Content that does not
    canonicalize is malformed input. *)
Definition verify (trustedPublicKeys : list (string * string)) (r : SealedRecord)
  : VerificationVerdict :=
  match canonicalize (sealed r) with
  | None => mkVerdict false false false None "Malformed input"
  | Some canonical =>
      let recomputed := digest canonical in
      let integrityValid := recomputed =? contentHash r in
      let signatureValid :=
        match resolveKey (publicKeyVersion r) trustedPublicKeys with
        | None => false
        | Some key => verifySignature recomputed (signature r) key
        end in
      let timestampValid :=
        match timestampProof r with
        | Some proof => Some (verifyAttestation proof recomputed)
        | None => None
        end in
      let isValid :=
        integrityValid && signatureValid
        && match timestampValid with Some false => false | _ => true end in
      mkVerdict isValid integrityValid signatureValid timestampValid
        (if isValid then "Record verified"
         else if negb integrityValid then "Content hash mismatch"
         else if negb signatureValid then
           match resolveKey (publicKeyVersion r) trustedPublicKeys with
           | None => "Unknown key version"
           | Some _ => "Invalid signature"
           end
         else "Invalid timestamp proof")
  end.

End Primitives.

(** Modelled from the spec: the record the seal endpoint answers with
    (section 6 and the TruthRecordResponse interface), the endpoint
    itself missing from the sources. *)
Definition recordValue (version : Z) (r : SealedRecord) : value :=
  Obj ([("id", Str (id (sealed r)));
        ("ownerId", Str (ownerId (sealed r)));
        ("title", Str (title (sealed r)));
        ("content", Str (content (sealed r)));
        ("eventTimestamp", Str (eventTimestamp (sealed r)));
        ("sealedTimestamp", Str (sealedTimestamp r));
        ("contentHash", Str (contentHash r));
        ("signature", Str (signature r));
        ("version", Num (Number_toString version));
        ("status", Str (status r));
        ("sealingVersion", Str (sealingVersion r));
        ("publicKeyVersion", Str (publicKeyVersion r))]
       ++ optional "location" (fun l => l) (location (sealed r))
       ++ optional "timestampProof" Str (timestampProof r))%list.

(** Modelled from the spec: the verdict the verify endpoint answers with
    (section 6), the endpoint itself missing from the sources; a null
    timestamp validity travels as [null]. *)
Definition verdictValue (recordId : string) (v : VerificationVerdict) : value :=
  Obj [("recordId", Str recordId);
       ("isValid", Bool (isValid v));
       ("integrityValid", Bool (integrityValid v));
       ("signatureValid", Bool (signatureValid v));
       ("timestampValid", match timestampValid v with Some b => Bool b | None => Null end);
       ("message", Str (message v))].

(** A response with status 200 whose body is [{ data }]. *)
Definition okResponse (data : value) : Response :=
  mkResponse 200 (Return (Obj [("data", data)])).

End Engine.

(* ================================================================== *)
(** * Reading hexadecimal text back *)
(* ================================================================== *)

Module Hex.
Import JS.

(** The two digits of a byte, high nibble first. *)
Definition pair (b : byte) : string :=
  String (hexDigit (Byte.to_N b / 16)) (str1 (hexDigit (Byte.to_N b mod 16))).

Definition isLowerHexDigit (c : ascii) : bool :=
  let n := N_of_ascii c in
  ((48 <=? n) && (n <=? 57) || (97 <=? n) && (n <=? 102))%N.

Definition digitValue (c : ascii) : option N :=
  let n := N_of_ascii c in
  if ((48 <=? n) && (n <=? 57))%N then Some (n - 48)%N
  else if ((97 <=? n) && (n <=? 102))%N then Some (n - 87)%N
  else None.

(** Bytes from lower-case hexadecimal text, two digits a byte. *)
Fixpoint decode (s : string) : option (list byte) :=
  match s with
  | EmptyString => Some []
  | String hi (String lo rest) =>
      match digitValue hi, digitValue lo, decode rest with
      | Some h, Some l, Some bs =>
          option_map (fun b => b :: bs) (Byte.of_N (16 * h + l))
      | _, _, _ => None
      end
  | String _ EmptyString => None
  end.

Fixpoint all (p : ascii -> bool) (s : string) : bool :=
  match s with
  | EmptyString => true
  | String c r => p c && all p r
  end.

End Hex.

(* ================================================================== *)
(** * The vocabulary of the statements *)
(* ================================================================== *)

(** ** FileUpload: accepted batches *)

Section AcceptedBatches.
Import JS Web FileUpload.

Variable readAsDataURL : File -> option string.
Variable files : list FileWithHash.
Variable maxFiles : Z.
Variable maxSize : Z.
Variable acceptedTypes : option (list string).

(** A file passes when it is no larger than [maxSize] and, where accepted
    types are given, its type is one of them. *)
Definition passes (f : File) : bool :=
  negb (size f >? maxSize)%Z
  && match acceptedTypes with
     | Some types => includes types (type f)
     | None => true
     end.

(** A batch is accepted, as the claim words it, when it fits under
    [maxFiles] with the files already there and every file of it passes. *)
Definition accepted (batch : list File) : bool :=
  negb (Z.of_nat (List.length files) + Z.of_nat (List.length batch) >? maxFiles)%Z
  && forallb passes batch.

(** A file is hashed when [calculateFileHash] resolves for it. *)
Definition hashed (hashRejection : File -> option (nat * thrown)) (f : File) : bool :=
  match hashRejection f with
  | Some _ => false
  | None => true
  end.

(** A platform on which [crypto.subtle] is undefined: every call of
    [calculateFileHash] rejects with the TypeError of reading [digest]. *)
Definition noSubtleCrypto (f : File) : option (nat * thrown) :=
  Some (0%nat,
        ErrorInstance "TypeError" "Cannot read properties of undefined (reading 'digest')").

(** A batch file as the component records it. *)
Definition processed (f : File) : FileWithHash :=
  mkFileWithHash f (calculateFileHash f) (generatePreview readAsDataURL f)
    (Some 0%Z) (Some false) None.

End AcceptedBatches.

(** ** CreateRecordForm: the condition claimed and the condition checked *)

Section SubmitConditions.
Import JS Web CreateRecordForm.

(** The condition as the claim words it: the trimmed title is non-empty
    and at most 500 characters, the trimmed content is non-empty and at
    most 10,000,000 characters, the event timestamp is non-empty. *)
Definition acceptedAsClaimed (formData : FormData) : bool :=
  negb (trim (title formData) =? "") && (JS.length (trim (title formData)) <=? 500)%Z
  && negb (trim (content formData) =? "")
  && (JS.length (trim (content formData)) <=? 10000000)%Z
  && negb (eventTimestamp formData =? "").

(** The condition [validate] checks: the limits apply to the fields as
    typed, before trimming. *)
Definition acceptedByValidate (formData : FormData) : bool :=
  negb (trim (title formData) =? "") && (JS.length (title formData) <=? 500)%Z
  && negb (trim (content formData) =? "")
  && (JS.length (content formData) <=? 10000000)%Z
  && negb (eventTimestamp formData =? "").

(** A title of 500 letters and a trailing blank, and a content of
    10,000,000 letters and a trailing blank. *)
Definition longTitleForm : FormData :=
  mkFormData (repeatString 500 "a" ++ " ") "hello" "2024-01-15T14:30" "" "".

Definition longContentForm : FormData :=
  mkFormData "T" (repeatString (Z.to_nat 10000000) "a" ++ " ") "2024-01-15T14:30" "" "".

End SubmitConditions.

(** ** Worlds, records and bundles for examples *)

Section Samples.
Import JS Web.

(** A world without state in which every [fetch] settles the same way. *)
Definition constantEnv (settled : Outcome Response) : Env :=
  mkEnv unit (fun _ _ w => (settled, w)) None None.

(** What [response.json()] rejects with on a body that is no JSON. *)
Definition notJSON : Outcome value :=
  Throw (ErrorInstance "SyntaxError" "Unexpected token '<'").

(** A bundle as the VerificationBundle interface of the client declares
    it, and a record with a key as the page holds them. *)
Definition sampleBundle : value :=
  Obj [("recordId", Str "r1");
       ("sealedTimestamp", Str "2024-01-15T15:00:00.000Z");
       ("eventTimestamp", Str "2024-01-15T14:30:00.000Z");
       ("sealingVersion", Str "1.0.0");
       ("publicKeyVersion", Str "v1");
       ("sealableContent",
        Obj [("id", Str "r1"); ("ownerId", Str "u1"); ("title", Str "T");
             ("content", Str "hello"); ("eventTimestamp", Str "2024-01-15T14:30:00.000Z")]);
       ("contentHash", Str "f89e6387b16a59aa792d01d7b18a2fd4630c8338cd0915104258682b360c17c3");
       ("signature", Str "c2lnbmF0dXJl");
       ("publicKey",
        Obj [("pem", Str "-----BEGIN PUBLIC KEY-----"); ("version", Str "v1");
             ("algorithm", Str "ECDSA"); ("curve", Str "P-256");
             ("createdAt", Str "2024-01-01T00:00:00.000Z")]);
       ("verificationInstructions",
        Obj [("hashVerification",
              Obj [("description", Str "Recompute the hash");
                   ("steps", Arr [Str "Canonicalize"; Str "Hash"])]);
             ("signatureVerification",
              Obj [("description", Str "Check the signature"); ("steps", Arr [Str "Verify"])])]);
       ("guarantees",
        Obj [("integrity", Str "Content unchanged"); ("authenticity", Str "Sealed by CIVIL");
             ("timestamp", Str "Existed when sealed")]);
       ("limitations",
        Obj [("contentTruth", Str "Not a proof of truth");
             ("authorship", Str "Not a proof of authorship")])].

Definition sampleRecord : value :=
  Obj [("id", Str "r1"); ("ownerId", Str "u1"); ("title", Str "T"); ("content", Str "hello");
       ("eventTimestamp", Str "2024-01-15T14:30:00.000Z");
       ("sealedTimestamp", Str "2024-01-15T15:00:00.000Z");
       ("contentHash", Str "f89e6387b16a59aa792d01d7b18a2fd4630c8338cd0915104258682b360c17c3");
       ("signature", Str "c2lnbmF0dXJl"); ("version", Num "1"); ("status", Str "SEALED");
       ("sealingVersion", Str "1.0.0"); ("publicKeyVersion", Str "v1")].

Definition samplePublicKey : value :=
  Obj [("publicKeyPEM", Str "-----BEGIN PUBLIC KEY-----"); ("version", Str "v1");
       ("algorithm", Str "ECDSA"); ("curve", Str "P-256");
       ("createdAt", Str "2024-01-01T00:00:00.000Z")].

(** A platform [Date] that knows the two timestamps of the sample
    record, and no other date. *)
Definition sampleDate_parse (s : string) : option Z :=
  if s =? "2024-01-15T14:30:00.000Z" then Some 1705329000000%Z
  else if s =? "2024-01-15T15:00:00.000Z" then Some 1705330800000%Z
  else None.

Definition sampleDate_toISOString (t : Z) : string :=
  if (t =? 1705329000000)%Z then "2024-01-15T14:30:00.000Z" else "2024-01-15T15:00:00.000Z".

(** A quoted string, for writing JSON texts down. *)
Definition q (s : string) : string := JSON.quote s.

(** The sealable content of [sampleRecord]. *)
Definition sampleContent : Engine.SealableContent :=
  Engine.mkContent "r1" "u1" "T" "hello" "2024-01-15T14:30:00.000Z" None.

End Samples.

(** ** api-edge.ts and api.ts: calls and messages *)

Section Calls.
Import JS Web.
Local Open Scope async_scope.

(** The message as the claim words it for a failure other than 404: the
    error field of the response body, or HTTP and the status. *)
Definition messageAsClaimed (response : Response) (m : string) : Prop :=
  (exists body, json response = Return body
                /\ truthy (prop body "error") = true
                /\ m = ToString (prop body "error"))
  \/ m = "HTTP " ++ Number_toString (status response).

(** The exported functions of api.ts with their arguments. *)
Inductive call : Type :=
| CreateTruthRecord (data : value)
| GetTruthRecord (recordId : string)
| VerifyRecordCall (recordId : string)
| GetPublicKey
| GetVerificationBundle (recordId : string)
| CreateMemoryRecord (data : value)
| GetMemoryRecord (memoryId : string)
| ListMemoryRecords (ownerId : string) (page limit : option number)
| UpdateMemoryRecord (id : string) (data : value)
| UploadFile (file : File) (ownerId recordId : string)
| UploadMultipleFiles (files : list File) (ownerId recordId : string).

Definition run (E : Env) (c : call) : Async (World E) value :=
  match c with
  | CreateTruthRecord data => Api.createTruthRecord E data
  | GetTruthRecord recordId => Api.getTruthRecord E recordId
  | VerifyRecordCall recordId => Api.verifyRecord E recordId
  | GetPublicKey => Api.getPublicKey E
  | GetVerificationBundle recordId => Api.getVerificationBundle E recordId
  | CreateMemoryRecord data => Api.createMemoryRecord E data
  | GetMemoryRecord memoryId => Api.getMemoryRecord E memoryId
  | ListMemoryRecords ownerId page limit => Api.listMemoryRecords E ownerId page limit
  | UpdateMemoryRecord id data => Api.updateMemoryRecord E id data
  | UploadFile file ownerId recordId => Api.uploadFile E file ownerId recordId
  | UploadMultipleFiles files ownerId recordId =>
      Api.uploadMultipleFiles E files ownerId recordId
  end.

(** The data payload of what a call resolves with: the value itself,
    except for [listMemoryRecords], which resolves with the whole result. *)
Definition payload (c : call) (v : value) : value :=
  match c with
  | ListMemoryRecords _ _ _ => prop v "data"
  | _ => v
  end.

(** The message of the error for a response that is not ok: the body's
    error field, else its message field, else the status. *)
Definition httpErrorMessage (status : Z) (body : value) : string :=
  if truthy (prop body "error") then ToString (prop body "error")
  else if truthy (prop body "message") then ToString (prop body "message")
  else "HTTP error! status: " ++ Number_toString status.

(** What a call does with the response of its [fetch]. *)
Definition after (E : Env) (c : call) (response : Response) : Async (World E) value :=
  match c with
  | ListMemoryRecords _ _ _ => Api.throwUnlessOk E response;; Api.resultWithData E response
  | _ => Api.dataOf E response
  end.

(** The verdict [handleVerify] stores for an error. *)
Definition failedVerdict (err : thrown) : VerifyRecord.Verdict :=
  VerifyRecord.mkVerdict (Bool false) (Bool false) (Bool false) Null
    (Str (messageOr "Verification failed" err)).

End Calls.

(** ** The wire format as specified *)

Section WireFormat.
Import JS Web.

(** The wire format as the specification words it: the top-level fields
    that must be there, the optional ones, and the fields of publicKey. *)
Definition requiredAsSpecified : list string :=
  ["id"; "ownerId"; "title"; "content"; "eventTimestamp"; "sealedTimestamp";
   "contentHash"; "signature"; "version"; "status"; "sealingVersion";
   "publicKeyVersion"; "publicKey"; "verificationInstructions"; "guarantees";
   "limitations"].

Definition optionalAsSpecified : list string := ["location"; "timestampProof"].

Definition publicKeyAsSpecified : list string := ["pem"; "version"; "algorithm"; "curve"].

Definition hasKey (k : string) (v : value) : bool := existsb (String.eqb k) (keys v).

(** A value has the specified shape when every required field is there,
    every field is a required or an optional one, and publicKey has
    exactly its four fields. *)
Definition shapedAsSpecified (v : value) : bool :=
  forallb (fun k => hasKey k v) requiredAsSpecified
  && forallb (fun k => existsb (String.eqb k) (requiredAsSpecified ++ optionalAsSpecified)%list)
       (keys v)
  && forallb (fun k => hasKey k (prop v "publicKey")) publicKeyAsSpecified
  && forallb (fun k => existsb (String.eqb k) publicKeyAsSpecified) (keys (prop v "publicKey")).

(** What [JSON.stringify] writes of an object: the properties whose
    value is not [undefined]. *)
Definition isDefined (v : value) : bool :=
  match v with
  | Undefined => false
  | _ => true
  end.

Definition definedOnly (v : value) : value :=
  match v with
  | Obj props => Obj (filter (fun kx => isDefined (snd kx)) props)
  | _ => v
  end.

(** The fields of the record that the page exports when it holds no
    bundle. *)
Definition recordFieldsExported : list string :=
  ["id"; "ownerId"; "title"; "content"; "eventTimestamp"; "sealedTimestamp";
   "contentHash"; "signature"; "version"; "status"; "sealingVersion"].

(** The page holding the sample record and key, with the sample bundle
    and without a bundle. *)
Definition pageWithBundle : VerifyRecord.State :=
  VerifyRecord.mkState sampleRecord samplePublicKey sampleBundle None false.

Definition pageWithoutBundle : VerifyRecord.State :=
  VerifyRecord.mkState sampleRecord samplePublicKey Null None false.

End WireFormat.

(** ** A small signer, time authority and server to run the engine on *)

Section ToyEngine.
Import JS Web.

(** A signature is the digest tagged with the key, a proof the digest
    tagged with the authority's name; the public half of a key is the
    key itself. *)
Definition toySign (d key : string) : string := d ++ "/" ++ key.

Definition toyVerifySignature (d s key : string) : bool := s =? d ++ "/" ++ key.

Definition toyAttest (d : string) : option string := Some ("tsa:" ++ d).

Definition toyVerifyAttestation (proof d : string) : bool := proof =? "tsa:" ++ d.

Definition noAttest (d : string) : option string := None.

Definition toyKeys : list (string * string) := [("v1", "k1")].

Definition toyVerify : Engine.SealedRecord -> Engine.VerificationVerdict :=
  Engine.verify toyVerifySignature toyVerifyAttestation toyKeys.

(** The record the toy signer seals from [sampleContent], with and
    without a timestamp proof. *)
Definition sealedWith (attest : string -> option string) : Engine.SealedRecord :=
  let d := Engine.digest
             (match Engine.canonicalize sampleContent with Some s => s | None => "" end) in
  Engine.mkSealed sampleContent d (toySign d "k1") "1.0.0" "v1" "2024-01-15T15:00:00.000Z"
    (attest d) "SEALED".

(** A server whose create-record endpoint seals [sampleContent] and
    whose verify-record endpoint verifies it once sealed; the world is
    whether the record is sealed yet. *)
Definition toyServer : Env :=
  mkEnv bool
    (fun url init sealedYet =>
       if url =? "https://iitnfvqesrrninypeuvx.supabase.co/functions/v1/create-record" then
         (Return (Engine.okResponse (Engine.recordValue 1 (sealedWith toyAttest))), true)
       else if sealedYet then
         (Return (Engine.okResponse
                    (Engine.verdictValue "r1" (toyVerify (sealedWith toyAttest)))), true)
       else
         (Return (mkResponse 404 (Return (Obj [("error", Str "Record not found")]))), false))
    None None.

End ToyEngine.

(** ** Counting requests, the calls of api-edge.ts, form encoding *)

Section MoreCalls.
Import JS Web.
Local Open Scope async_scope.

(** The world of [E] with a counter of the requests made so far. *)
Definition counting (E : Env) : Env :=
  mkEnv (nat * World E)
    (fun url init nw =>
       match fetch E url init (snd nw) with
       | (settled, w') => (settled, (S (fst nw), w'))
       end)
    (VITE_API_URL E) (VITE_SUPABASE_ANON_KEY E).

(** The exported functions of api-edge.ts with their arguments. *)
Inductive edgeCall : Type :=
| EdgeCreateTruthRecord (data : value)
| EdgeGetTruthRecord (id : string)
| EdgeVerifyRecord (id : string)
| EdgeGetPublicKey
| EdgeGetVerificationBundle (id : string)
| EdgeUploadFile (file : File) (ownerId recordId : string)
| EdgeUploadMultipleFiles (files : list File) (ownerId recordId : string)
| EdgeCreateMemoryRecord (data : value)
| EdgeGetMemoryRecord (id : string)
| EdgeListMemoryRecords (ownerId : string) (page limit : option number)
| EdgeUpdateMemoryRecord (id : string) (data : value)
| EdgeCreateMilestone (data : value)
| EdgeGetMilestone (id : string)
| EdgeListMilestones (ownerId : string) (page limit : option number)
| EdgeUpdateMilestone (id : string) (data : value).

Definition runEdge (E : Env) (c : edgeCall) : Async (World E) value :=
  match c with
  | EdgeCreateTruthRecord data => ApiEdge.createTruthRecord E data
  | EdgeGetTruthRecord id => ApiEdge.getTruthRecord E id
  | EdgeVerifyRecord id => ApiEdge.verifyRecord E id
  | EdgeGetPublicKey => ApiEdge.getPublicKey E
  | EdgeGetVerificationBundle id => ApiEdge.getVerificationBundle E id
  | EdgeUploadFile file ownerId recordId => ApiEdge.uploadFile E file ownerId recordId
  | EdgeUploadMultipleFiles files ownerId recordId =>
      ApiEdge.uploadMultipleFiles E files ownerId recordId
  | EdgeCreateMemoryRecord data => ApiEdge.createMemoryRecord E data
  | EdgeGetMemoryRecord id => ApiEdge.getMemoryRecord E id
  | EdgeListMemoryRecords ownerId page limit => ApiEdge.listMemoryRecords E ownerId page limit
  | EdgeUpdateMemoryRecord id data => ApiEdge.updateMemoryRecord E id data
  | EdgeCreateMilestone data => ApiEdge.createMilestone E data
  | EdgeGetMilestone id => ApiEdge.getMilestone E id
  | EdgeListMilestones ownerId page limit => ApiEdge.listMilestones E ownerId page limit
  | EdgeUpdateMilestone id data => ApiEdge.updateMilestone E id data
  end.

(** The two list functions resolve with the whole body. *)
Definition isEdgeList (c : edgeCall) : bool :=
  match c with
  | EdgeListMemoryRecords _ _ _ | EdgeListMilestones _ _ _ => true
  | _ => false
  end.

Definition isEdgeGetTruthRecord (c : edgeCall) : bool :=
  match c with
  | EdgeGetTruthRecord _ => true
  | _ => false
  end.

(** What an edge call does with the response of its [fetch]. *)
Definition afterEdge (E : Env) (c : edgeCall) (response : Response) : Async (World E) value :=
  match c with
  | EdgeGetTruthRecord _ =>
      if negb (ok response) then
        if (status response =? 404)%Z then throw (Error_ (Str "Record not found"))
        else
          error <- try_catch (settle (json response))
                     (fun _ => ret (Obj [("error", Str "Unknown error")]));;
          e <- settle (get error "error");;
          throw (Error_ (or_ e (Str ("HTTP " ++ Number_toString (status response)))))
      else
        result <- settle (json response);;
        settle (get result "data")
  | EdgeListMemoryRecords _ _ _ | EdgeListMilestones _ _ _ => ApiEdge.wholeOf E response
  | _ => ApiEdge.dataOf E response
  end.

(** The code units the form serializer leaves or produces: letters,
    digits, the marks * - . _ and the two it encodes with, + and %. *)
Definition isFormSafe (c : ascii) : bool :=
  let n := N_of_ascii c in
  ((48 <=? n) && (n <=? 57) || (65 <=? n) && (n <=? 90) || (97 <=? n) && (n <=? 122)
   || (n =? 42) || (n =? 45) || (n =? 46) || (n =? 95) || (n =? 43) || (n =? 37))%N.

(** The value of a header of a request, and the calls that upload. *)
Definition header (name : string) (init : RequestInit) : option string :=
  match find (fun kv => fst kv =? name) (headers init) with
  | Some kv => Some (snd kv)
  | None => None
  end.

Definition isFormData (init : RequestInit) : bool :=
  match body init with
  | Some (BodyFormData _) => true
  | _ => false
  end.

Definition isUpload (c : call) : bool :=
  match c with
  | UploadFile _ _ _ | UploadMultipleFiles _ _ _ => true
  | _ => false
  end.

Definition isEdgeUpload (c : edgeCall) : bool :=
  match c with
  | EdgeUploadFile _ _ _ | EdgeUploadMultipleFiles _ _ _ => true
  | _ => false
  end.

End MoreCalls.

(* ================================================================== *)
(** * Properties *)
(* ================================================================== *)

(** ** The digest and its hexadecimal text *)

Section HexDigest.
Import JS.

(** The test vectors of FIPS 180-4 for the empty message and for abc. *)
Example sha256_empty :
  Engine.hex (SHA256.digest []) =
  "e3b0c44298fc1c149afbf4c8996fb92427ae41e4649b934ca495991b7852b855".
Proof. vm_compute. reflexivity. Qed.

Example sha256_abc :
  Engine.hex (SHA256.digest (Web.utf8 "abc")) =
  "ba7816bf8f01cfea414140de5dae2223b00361a396177a9cb410ff61f20015ad".
Proof. vm_compute. reflexivity. Qed.

(** A digest has 32 bytes, 256 bits. *)
Lemma digest_length : forall msg, List.length (SHA256.digest msg) = 32%nat.
Proof.
  intros msg. unfold SHA256.digest.
  generalize (SHA256.hash msg); intros H.
  rewrite length_map. reflexivity.
Qed.

(** [b.toString(16).padStart(2, '0')] is the two digits of [b]. *)
Lemma padded_byte : forall b : byte,
  padStart 2 "0"%char (Number_toString16 (Byte.to_N b)) = Hex.pair b.
Proof. intros b; destruct b; vm_compute; reflexivity. Qed.

Lemma pair_digits : forall b : byte, Hex.all Hex.isLowerHexDigit (Hex.pair b) = true.
Proof. intros b; destruct b; vm_compute; reflexivity. Qed.

Lemma pair_decode : forall (b : byte) (rest : string) (bs : list byte),
  Hex.decode rest = Some bs -> Hex.decode (Hex.pair b ++ rest) = Some (b :: bs).
Proof.
  intros b rest bs Hrest.
  change (Hex.pair b ++ rest)
    with (String (hexDigit (Byte.to_N b / 16)) (String (hexDigit (Byte.to_N b mod 16)) rest)).
  cbn [Hex.decode]. rewrite Hrest.
  destruct b; vm_compute; reflexivity.
Qed.

Lemma hex_pairs : forall bs, Engine.hex bs = String.concat "" (map Hex.pair bs).
Proof.
  intros bs. unfold Engine.hex. f_equal.
  apply map_ext. intros b. apply padded_byte.
Qed.

Lemma concat_cons : forall (x : string) (l : list string),
  String.concat "" (x :: l) = x ++ String.concat "" l.
Proof.
  intros x [|y l]; cbn [String.concat].
  - induction x as [|c x IH]; cbn; [reflexivity | now rewrite <- IH].
  - reflexivity.
Qed.

Lemma all_app : forall p s t, Hex.all p (s ++ t) = Hex.all p s && Hex.all p t.
Proof.
  intros p s t; induction s as [|c s IH]; cbn; [reflexivity|].
  now rewrite IH, andb_assoc.
Qed.

Lemma length_app : forall s t : string,
  String.length (s ++ t) = (String.length s + String.length t)%nat.
Proof. intros s t; induction s as [|c s IH]; cbn; [reflexivity | now rewrite IH]. Qed.

Lemma pairs_length : forall bs,
  String.length (String.concat "" (map Hex.pair bs)) = (2 * List.length bs)%nat.
Proof.
  induction bs as [|b bs IH]; [reflexivity|].
  cbn [map]. rewrite concat_cons, length_app, IH.
  unfold Hex.pair, str1. cbn [String.length List.length]. lia.
Qed.

Lemma pairs_digits : forall bs,
  Hex.all Hex.isLowerHexDigit (String.concat "" (map Hex.pair bs)) = true.
Proof.
  induction bs as [|b bs IH]; [reflexivity|].
  cbn [map]. now rewrite concat_cons, all_app, pair_digits, IH.
Qed.

Lemma pairs_decode : forall bs, Hex.decode (String.concat "" (map Hex.pair bs)) = Some bs.
Proof.
  induction bs as [|b bs IH]; [reflexivity|].
  cbn [map]. rewrite concat_cons. now apply pair_decode.
Qed.

(** C7. For every file, [calculateFileHash] is the SHA-256 digest of the
    file's bytes (32 bytes, 256 bits) written as lower-case hexadecimal:
    each byte as exactly two digits, high nibble first and zero-padded,
    so 64 characters in all, every one a digit 0-9 or a-f, and reading
    the text back gives the digest. *)
Theorem calculateFileHash_hex_digest : forall file : Web.File,
  List.length (SHA256.digest (Web.content file)) = 32%nat
  /\ FileUpload.calculateFileHash file
     = String.concat "" (map Hex.pair (SHA256.digest (Web.content file)))
  /\ String.length (FileUpload.calculateFileHash file) = 64%nat
  /\ Hex.all Hex.isLowerHexDigit (FileUpload.calculateFileHash file) = true
  /\ Hex.decode (FileUpload.calculateFileHash file) = Some (SHA256.digest (Web.content file)).
Proof.
  intros file.
  assert (E : FileUpload.calculateFileHash file
              = String.concat "" (map Hex.pair (SHA256.digest (Web.content file)))).
  { change (FileUpload.calculateFileHash file)
      with (Engine.hex (SHA256.digest (Web.content file))).
    apply hex_pairs. }
  rewrite E.
  split; [apply digest_length|].
  split; [reflexivity|].
  split; [now rewrite pairs_length, digest_length|].
  split; [apply pairs_digits | apply pairs_decode].
Qed.

End HexDigest.

(** ** FileUpload: a batch is added whole or not at all *)

Section ProcessFiles.
Import JS Web FileUpload.

Variable readAsDataURL : File -> option string.
Variable megabytes : Z -> string.
Variable hashRejection : File -> option (nat * thrown).
Variable files : list FileWithHash.
Variable maxFiles : Z.
Variable maxSize : Z.
Variable acceptedTypes : option (list string).

Local Abbreviation passes := (passes maxSize acceptedTypes).
Local Abbreviation accepted := (accepted files maxFiles maxSize acceptedTypes).
Local Abbreviation processed := (processed readAsDataURL).
Local Abbreviation hashed := (hashed hashRejection).
Local Abbreviation promiseOf :=
  (processOne readAsDataURL megabytes hashRejection maxSize acceptedTypes).

Lemma processOne_passes : forall f,
  passes f = true -> hashed f = true -> promiseOf f = Resolves (processed f).
Proof.
  intros f H Hhash. unfold passes in H.
  apply andb_true_iff in H as [Hsize Htype].
  unfold processOne, hashed in *. apply negb_true_iff in Hsize. rewrite Hsize.
  destruct acceptedTypes as [types|]; [rewrite Htype; cbn [negb]|];
    destruct (hashRejection f) as [[time e]|]; try discriminate Hhash; reflexivity.
Qed.

Lemma processOne_unhashed : forall f,
  passes f = true -> hashed f = false ->
  exists time e, hashRejection f = Some (time, e) /\ promiseOf f = RejectsAt time e.
Proof.
  intros f H Hhash. unfold passes in H.
  apply andb_true_iff in H as [Hsize Htype].
  unfold processOne, hashed in *. apply negb_true_iff in Hsize. rewrite Hsize.
  destruct acceptedTypes as [types|]; [rewrite Htype; cbn [negb]|];
    destruct (hashRejection f) as [[time e]|]; try discriminate Hhash;
    exists time, e; split; reflexivity.
Qed.

Lemma processOne_fails : forall f,
  passes f = false ->
  promiseOf f
  = Rejected (ErrorInstance "Error"
                (if (size f >? maxSize)%Z
                 then name f ++ " exceeds maximum size of " ++ megabytes maxSize ++ "MB"
                 else name f ++ " has unsupported file type")).
Proof.
  intros f H. unfold passes in H. unfold processOne.
  destruct (size f >? maxSize)%Z; [reflexivity|].
  destruct acceptedTypes as [types|]; cbn in H.
  - rewrite H. reflexivity.
  - discriminate.
Qed.

(** A file that passes the checks is not rejected when [Promise.all]
    looks at the promises. *)
Lemma processOne_not_rejected : forall f (ps : list (Promise FileWithHash)),
  passes f = true -> firstRejected (promiseOf f :: ps) = firstRejected ps.
Proof.
  intros f ps H. destruct (hashed f) eqn:Hhash.
  - rewrite (processOne_passes f H Hhash). reflexivity.
  - destruct (processOne_unhashed f H Hhash) as [time [e [_ He]]]. rewrite He. reflexivity.
Qed.

Lemma firstRejected_passes : forall batch,
  forallb passes batch = true -> firstRejected (map promiseOf batch) = None.
Proof.
  induction batch as [|f batch IH]; intros H; [reflexivity|].
  cbn [forallb] in H. apply andb_true_iff in H as [Hf Hrest].
  cbn [map]. rewrite (processOne_not_rejected f _ Hf). apply IH, Hrest.
Qed.

Lemma firstRejected_fails : forall batch,
  forallb passes batch = false -> exists e, firstRejected (map promiseOf batch) = Some e.
Proof.
  induction batch as [|f batch IH]; intros H; [discriminate|].
  cbn [forallb] in H. cbn [map].
  destruct (passes f) eqn:Hf.
  - rewrite (processOne_not_rejected f _ Hf). apply IH, H.
  - rewrite (processOne_fails f Hf). eexists. reflexivity.
Qed.

Lemma earliestRejection_unhashed : forall batch,
  forallb passes batch = true -> forallb hashed batch = false ->
  exists time e, earliestRejection (map promiseOf batch) = Some (time, e).
Proof.
  induction batch as [|f batch IH]; intros H Hhash; [discriminate|].
  cbn [forallb] in H, Hhash. apply andb_true_iff in H as [Hf Hrest]. cbn [map].
  destruct (hashed f) eqn:Hfh.
  - rewrite (processOne_passes f Hf Hfh). cbn [earliestRejection]. apply IH; assumption.
  - destruct (processOne_unhashed f Hf Hfh) as [time [e [_ He]]]. rewrite He.
    cbn [earliestRejection].
    destruct (earliestRejection (map promiseOf batch)) as [[time' e']|];
      [destruct (time' <? time)%nat|]; do 2 eexists; reflexivity.
Qed.

Lemma promiseAll_passes : forall batch,
  forallb passes batch = true -> forallb hashed batch = true ->
  promiseAll (map promiseOf batch) = Return (map processed batch).
Proof.
  intros batch H Hhash. unfold promiseAll. rewrite (firstRejected_passes batch H).
  assert (Hboth : earliestRejection (map promiseOf batch) = None
                  /\ resolved (map promiseOf batch) = map processed batch).
  { induction batch as [|f batch IH]; [split; reflexivity|].
    cbn [forallb] in H, Hhash.
    apply andb_true_iff in H as [Hf Hrest]. apply andb_true_iff in Hhash as [Hfh Hresth].
    cbn [map]. rewrite (processOne_passes f Hf Hfh). cbn [earliestRejection resolved].
    destruct (IH Hrest Hresth) as [-> ->]. split; reflexivity. }
  destruct Hboth as [-> ->]. reflexivity.
Qed.

Lemma promiseAll_fails : forall batch,
  forallb passes batch && forallb hashed batch = false ->
  exists e, promiseAll (map promiseOf batch) = Throw e.
Proof.
  intros batch H. unfold promiseAll.
  destruct (forallb passes batch) eqn:Hpass.
  - cbn [andb] in H. rewrite (firstRejected_passes batch Hpass).
    destruct (earliestRejection_unhashed batch Hpass H) as [time [e ->]].
    exists e. reflexivity.
  - destruct (firstRejected_fails batch Hpass) as [e ->]. exists e. reflexivity.
Qed.

(** C9, amended. [processFiles] adds a batch whole or not at all.  When
    the batch would take the list past [maxFiles], or one of its files is
    larger than [maxSize] or of a type that is not accepted, or the hash
    of one of its files cannot be computed, [onFilesChange] is not called
    and there is one alert; otherwise it is called exactly once, with the
    previous files followed by every file of the batch in order, each
    with the hash [calculateFileHash] computes for it. *)
Theorem processFiles_all_or_none : forall batch : list File,
  onFilesChangeCalls
    (processFiles readAsDataURL megabytes hashRejection files maxFiles maxSize acceptedTypes
       batch)
  = (if accepted batch && forallb hashed batch
     then [(files ++ map processed batch)%list] else [])
  /\ (accepted batch && forallb hashed batch = false ->
      exists text,
        processFiles readAsDataURL megabytes hashRejection files maxFiles maxSize
          acceptedTypes batch
        = [Alert text]
        \/ processFiles readAsDataURL megabytes hashRejection files maxFiles maxSize
             acceptedTypes batch
           = [SetIsProcessing true; Alert text; SetIsProcessing false])
  /\ map hash (map processed batch) = map calculateFileHash batch
  /\ map file (map processed batch) = batch.
Proof.
  intros batch. unfold processFiles, accepted.
  destruct (Z.of_nat (List.length files) + Z.of_nat (List.length batch) >? maxFiles)%Z.
  - cbn [negb andb]. split; [reflexivity|]. split.
    + intros _. eexists. left. reflexivity.
    + rewrite !map_map. cbn [hash file processed]. split; [reflexivity|].
      apply map_id.
  - cbn [negb andb].
    destruct (forallb passes batch && forallb hashed batch) eqn:Hall.
    + apply andb_true_iff in Hall as [Hpass Hhash].
      rewrite (promiseAll_passes batch Hpass Hhash).
      split; [reflexivity|]. split; [discriminate|].
      rewrite !map_map. cbn [hash file processed]. split; [reflexivity|].
      apply map_id.
    + destruct (promiseAll_fails batch Hall) as [e He]. rewrite He.
      split; [reflexivity|]. split.
      * intros _. eexists. right. reflexivity.
      * rewrite !map_map. cbn [hash file processed]. split; [reflexivity|].
        apply map_id.
Qed.

End ProcessFiles.

(** The claim fails on the code: one small file that passes every check,
    on a platform without [crypto.subtle]: the batch is accepted as the
    claim words it, and yet [onFilesChange] is not called: the rejection
    of [calculateFileHash] reaches the catch, and there is an alert. *)
Lemma processFiles_unhashed_batch :
  accepted [] 10 104857600 None [Web.mkFile "a.txt" "text/plain" [x61]] = true
  /\ FileUpload.processFiles (fun _ => None) (fun _ => "100") noSubtleCrypto
       [] 10 104857600 None [Web.mkFile "a.txt" "text/plain" [x61]]
     = [FileUpload.SetIsProcessing true;
        FileUpload.Alert "Cannot read properties of undefined (reading 'digest')";
        FileUpload.SetIsProcessing false]
  /\ FileUpload.onFilesChangeCalls
       (FileUpload.processFiles (fun _ => None) (fun _ => "100") noSubtleCrypto
          [] 10 104857600 None [Web.mkFile "a.txt" "text/plain" [x61]])
     <> [[processed (fun _ => None) (Web.mkFile "a.txt" "text/plain" [x61])]].
Proof. repeat split. discriminate. Qed.

(** Three batches against a limit of two files of two bytes: one small
    file is added; a batch with a file of three bytes is refused whole,
    with the alert for that file, also when the hash of the small file
    cannot be computed; a batch of three files is refused before any
    file is read. *)
Example processFiles_batches :
  let small := Web.mkFile "a.txt" "text/plain" [x61] in
  let large := Web.mkFile "b.bin" "application/octet-stream" [x00; x01; x02] in
  let run := FileUpload.processFiles (fun _ => None) (fun _ => "0.0000019073486328125")
               (fun _ => None) [] 2 2 None in
  let runWithoutCrypto :=
    FileUpload.processFiles (fun _ => None) (fun _ => "0.0000019073486328125")
      noSubtleCrypto [] 2 2 None in
  run [small]
  = [FileUpload.SetIsProcessing true;
     FileUpload.OnFilesChange
       [FileUpload.mkFileWithHash small
          "ca978112ca1bbdcafac231b39a23dc4da786eff8147c4e72b9807785afee48bb"
          None (Some 0%Z) (Some false) None];
     FileUpload.SetIsProcessing false]
  /\ run [small; large]
     = [FileUpload.SetIsProcessing true;
        FileUpload.Alert "b.bin exceeds maximum size of 0.0000019073486328125MB";
        FileUpload.SetIsProcessing false]
  /\ runWithoutCrypto [small; large] = run [small; large]
  /\ run [small; small; small] = [FileUpload.Alert "Maximum 2 files allowed"].
Proof. repeat split; vm_compute; reflexivity. Qed.

(** ** CreateRecordForm: when [handleSubmit] starts sealing *)

Section HandleSubmit.
Import JS Web CreateRecordForm.

Lemma validate_accepts : forall formData,
  snd (validate formData) = acceptedByValidate formData.
Proof.
  intros formData. unfold validate, acceptedByValidate, newErrors, noErrors.
  cbn [snd titleError contentError eventTimestampError].
  rewrite !Z.gtb_ltb, !Z.leb_antisym.
  destruct (trim (title formData) =? ""), (trim (content formData) =? ""),
    (eventTimestamp formData =? ""),
    (500 <? JS.length (title formData))%Z,
    (10000000 <? JS.length (content formData))%Z; reflexivity.
Qed.

Lemma repeatString_length : forall n c, String.length (repeatString n c) = n.
Proof. induction n as [|n IH]; intros c; cbn; [reflexivity | now rewrite IH]. Qed.

Lemma trim_letters_blank : forall n,
  trim (repeatString (S n) "a" ++ " ") = repeatString (S n) "a".
Proof.
  intros n. unfold trim. cbn [repeatString append trimStart].
  change (isWhiteSpace "a") with false. cbv iota.
  change (String "a" (repeatString n "a" ++ " ")) with (repeatString (S n) "a" ++ " ").
  induction n as [|n IH]; [reflexivity|].
  change (repeatString (S (S n)) "a" ++ " ") with (String "a" (repeatString (S n) "a" ++ " ")).
  cbn [trimEnd]. rewrite IH. reflexivity.
Qed.

Lemma long_content : forall n,
  Z.of_nat (S n) = 10000000%Z ->
  acceptedAsClaimed (mkFormData "T" (repeatString (S n) "a" ++ " ") "2024-01-15T14:30" "" "")
  = true
  /\ acceptedByValidate
       (mkFormData "T" (repeatString (S n) "a" ++ " ") "2024-01-15T14:30" "" "")
     = false.
Proof.
  intros n Hn. unfold acceptedAsClaimed, acceptedByValidate, JS.length.
  cbn [title content eventTimestamp]. rewrite trim_letters_blank.
  rewrite length_app, !repeatString_length.
  change (String.length " ") with 1%nat.
  replace (Z.of_nat (S n + 1)) with 10000001%Z by lia. rewrite Hn.
  split; reflexivity.
Qed.

(** The claim fails on the code: the trimmed title of [longTitleForm] has
    500 characters and the trimmed content of [longContentForm] has
    10,000,000, the other fields are there, and [handleSubmit] calls
    [onSubmit] for neither, whatever the date functions. *)
Lemma handleSubmit_untrimmed_limit :
  (acceptedAsClaimed longTitleForm = true
   /\ invokesOnSubmit
        (handleSubmit (fun _ => Some 1705329000000%Z) (fun _ => "2024-01-15T14:30:00.000Z")
           longTitleForm [])
      = false)
  /\ (acceptedAsClaimed longContentForm = true
      /\ invokesOnSubmit
           (handleSubmit (fun _ => Some 1705329000000%Z) (fun _ => "2024-01-15T14:30:00.000Z")
              longContentForm [])
         = false).
Proof.
  split; [split; vm_compute; reflexivity|].
  assert (Hn : exists n, Z.to_nat 10000000 = S n /\ Z.of_nat (S n) = 10000000%Z).
  { exists (Nat.pred (Z.to_nat 10000000)).
    assert (Z.to_nat 10000000 <> 0%nat) by lia.
    split; lia. }
  destruct Hn as [n [Hn Hlen]]. unfold longContentForm. rewrite Hn.
  destruct (long_content n Hlen) as [Hclaimed Hcode].
  split; [exact Hclaimed|].
  unfold handleSubmit. rewrite validate_accepts, Hcode. reflexivity.
Qed.

(** C6, amended. For every form state whose event timestamp is empty or
    parses as a date, [handleSubmit] calls [onSubmit] if and only if the
    title is non-empty after trimming and at most 500 characters as
    typed, the content is non-empty after trimming and at most 10,000,000
    characters as typed, and the event timestamp is non-empty. *)
Theorem handleSubmit_submits_iff :
  forall (Date_parse : string -> option Z) (Date_toISOString : Z -> string)
         (formData : FormData) (files : list FileUpload.FileWithHash),
    eventTimestamp formData = ""
    \/ (exists t, Date_parse (eventTimestamp formData) = Some t) ->
    invokesOnSubmit (handleSubmit Date_parse Date_toISOString formData files) = true
    <-> (trim (title formData) <> "" /\ (JS.length (title formData) <= 500)%Z
         /\ trim (content formData) <> "" /\ (JS.length (content formData) <= 10000000)%Z
         /\ eventTimestamp formData <> "").
Proof.
  intros Date_parse Date_toISOString formData files Hdate.
  assert (Hcond : acceptedByValidate formData = true
                  <-> (trim (title formData) <> ""
                       /\ (JS.length (title formData) <= 500)%Z
                       /\ trim (content formData) <> ""
                       /\ (JS.length (content formData) <= 10000000)%Z
                       /\ eventTimestamp formData <> "")).
  { unfold acceptedByValidate.
    rewrite !andb_true_iff, !negb_true_iff, !String.eqb_neq, !Z.leb_le. tauto. }
  rewrite <- Hcond. unfold handleSubmit. rewrite validate_accepts.
  destruct (acceptedByValidate formData) eqn:Hacc; cbn [negb invokesOnSubmit existsb orb].
  - destruct Hdate as [Hempty | [t Ht]].
    + pose proof (proj1 Hcond eq_refl) as Hall. tauto.
    + unfold newDate_toISOString. rewrite Ht. cbn. tauto.
  - split; intros H; discriminate H.
Qed.

(** The theorem applies: a filled form with a date that parses. *)
Lemma handleSubmit_submits_iff_witness :
  invokesOnSubmit
    (handleSubmit (fun _ => Some 1705329000000%Z) (fun _ => "2024-01-15T14:30:00.000Z")
       (mkFormData "Meeting notes" "The board met." "2024-01-15T14:30" "" "") [])
  = true
  <-> ("Meeting notes" <> "" /\ (13 <= 500)%Z /\ "The board met." <> ""
       /\ (14 <= 10000000)%Z /\ "2024-01-15T14:30" <> "").
Proof.
  apply (handleSubmit_submits_iff
           (fun _ => Some 1705329000000%Z) (fun _ => "2024-01-15T14:30:00.000Z")
           (mkFormData "Meeting notes" "The board met." "2024-01-15T14:30" "" "") []).
  right. exists 1705329000000%Z. reflexivity.
Defined.

End HandleSubmit.

(** ** api-edge.ts: not-found and the other failures of [getTruthRecord] *)

Section EdgeGetTruthRecord.
Import JS Web.


Lemma Error_or : forall (e : value) (fallback : string),
  Error_ (or_ e (Str fallback))
  = ErrorInstance "Error" (if truthy e then ToString e else fallback).
Proof.
  intros e fallback. unfold or_. destruct e as [| |[]|lit|s|l|props]; try reflexivity.
  - cbn [truthy]. destruct (negb _); reflexivity.
  - cbn [truthy]. destruct (negb _); reflexivity.
Qed.

Lemma get_nullish : forall (v : value) (k : string),
  v = Null \/ v = Undefined ->
  get v k
  = Throw (ErrorInstance "TypeError"
             ("Cannot read properties of " ++ ToString v ++ " (reading '" ++ k ++ "')")).
Proof. intros v k [-> | ->]; reflexivity. Qed.

Lemma edge_getTruthRecord_other :
  forall (E : Env) (id : string) (w w' : World E) (response : Response) (body : value),
    fetch E (ApiEdge.API_BASE_URL E ++ "/get-record?id=" ++ id)
      (mkInit (Some "GET") (ApiEdge.getHeaders E) None) w
    = (Return response, w') ->
    ok response = false -> status response <> 404%Z ->
    json response = Return body -> body <> Null -> body <> Undefined ->
    ApiEdge.getTruthRecord E id w
    = (Throw (ErrorInstance "Error"
                (if truthy (prop body "error") then ToString (prop body "error")
                 else "HTTP " ++ Number_toString (status response))), w').
Proof.
  intros E id w w' response body Hfetch Hok Hnot Hbody Hnull Hundef.
  unfold ApiEdge.getTruthRecord, bind. rewrite Hfetch, Hok. cbn [negb].
  apply Z.eqb_neq in Hnot. rewrite Hnot.
  unfold try_catch, settle, throw, ret. rewrite Hbody.
  assert (Hget : get body "error" = Return (prop body "error")).
  { destruct body; try reflexivity; contradiction. }
  rewrite Hget, Error_or. reflexivity.
Qed.



(** A status 500 with a JSON body: its error field, or HTTP 500. *)
Example edge_getTruthRecord_500 :
  fst (ApiEdge.getTruthRecord
         (constantEnv (Return (mkResponse 500 (Return (Obj [("error", Str "boom")]))))) "r1" tt)
  = Throw (ErrorInstance "Error" "boom")
  /\ fst (ApiEdge.getTruthRecord
            (constantEnv (Return (mkResponse 500 (Return (Obj []))))) "r1" tt)
     = Throw (ErrorInstance "Error" "HTTP 500").
Proof. split; reflexivity. Qed.

End EdgeGetTruthRecord.

(** ** api.ts: every exported function resolves with data or throws *)

Section ApiDataOrThrow.
Import JS Web.
Local Open Scope async_scope.

Lemma run_fetch_after : forall (E : Env) (c : call),
  exists url init, run E c = bind (fetch E url init) (after E c).
Proof. intros E c; destruct c; do 2 eexists; reflexivity. Qed.

Lemma get_present : forall (v : value) (k : string),
  v <> Null -> v <> Undefined -> get v k = Return (prop v k).
Proof. intros v k Hn Hu; destruct v; try reflexivity; contradiction. Qed.

Lemma truthy_present : forall v, truthy v = true -> v <> Undefined /\ v <> Null.
Proof. intros v H; split; intros ->; discriminate H. Qed.

Lemma throwUnlessOk_ok : forall (E : Env) (response : Response) (w : World E),
  ok response = true -> Api.throwUnlessOk E response w = (Return tt, w).
Proof. intros E response w H. unfold Api.throwUnlessOk. rewrite H. reflexivity. Qed.

Lemma throwUnlessOk_body : forall (E : Env) (response : Response) (w : World E) (body : value),
  ok response = false -> json response = Return body -> body <> Null -> body <> Undefined ->
  Api.throwUnlessOk E response w
  = (Throw (ErrorInstance "Error" (httpErrorMessage (status response) body)), w).
Proof.
  intros E response w body Hok Hbody Hn Hu.
  unfold Api.throwUnlessOk, httpErrorMessage, bind, try_catch, settle, ret, throw.
  rewrite Hok, Hbody. cbn [negb].
  rewrite (get_present body "error" Hn Hu).
  destruct (truthy (prop body "error")) eqn:He.
  - destruct (prop body "error"); try reflexivity; discriminate He.
  - rewrite (get_present body "message" Hn Hu).
    rewrite Error_or. reflexivity.
Qed.

Lemma throwUnlessOk_no_json : forall (E : Env) (response : Response) (w : World E) (e : thrown),
  ok response = false -> json response = Throw e ->
  Api.throwUnlessOk E response w
  = (Throw (ErrorInstance "Error" ("HTTP error! status: " ++ Number_toString (status response))),
     w).
Proof.
  intros E response w e Hok He.
  unfold Api.throwUnlessOk, bind, try_catch, settle, ret, throw.
  rewrite Hok, He. reflexivity.
Qed.

Lemma throwUnlessOk_not_ok : forall (E : Env) (response : Response) (w : World E),
  ok response = false -> exists e, Api.throwUnlessOk E response w = (Throw e, w).
Proof.
  intros E response w Hok.
  destruct (json response) as [body|e] eqn:Hjson.
  - unfold Api.throwUnlessOk, bind, try_catch, settle, ret, throw. rewrite Hok, Hjson.
    cbn [negb]. destruct (get body "error") as [x|e1]; [|eexists; reflexivity].
    destruct (truthy x); [eexists; reflexivity|].
    destruct (get body "message") as [m|e2]; eexists; reflexivity.
  - eexists. apply (throwUnlessOk_no_json E response w e Hok Hjson).
Qed.

(** [resultWithData] resolves only with a result whose data is truthy. *)
Lemma resultWithData_returns :
  forall (E : Env) (response : Response) (w w' : World E) (result : value),
    Api.resultWithData E response w = (Return result, w') ->
    truthy (prop result "data") = true /\ result <> Null /\ result <> Undefined.
Proof.
  intros E response w w' result. unfold Api.resultWithData, bind, settle, ret, throw.
  destruct (json response) as [body|e]; [|discriminate].
  destruct body; cbn [get prop]; try discriminate; cbn [truthy negb]; try discriminate.
  destruct (truthy (lookup "data" props)) eqn:Hdata; cbn [negb]; [|discriminate].
  intros H; injection H as <- _. cbn [prop]. repeat split; try assumption; discriminate.
Qed.

Lemma resultWithData_missing :
  forall (E : Env) (response : Response) (w : World E) (body : value),
    json response = Return body -> body <> Null -> body <> Undefined ->
    truthy (prop body "data") = false ->
    Api.resultWithData E response w
    = (Throw (ErrorInstance "Error" "Invalid response: missing data"), w).
Proof.
  intros E response w body Hbody Hn Hu Hdata.
  unfold Api.resultWithData, bind, settle, ret, throw.
  rewrite Hbody, (get_present body "data" Hn Hu), Hdata. reflexivity.
Qed.

(** An ok response with truthy data resolves with the data. *)
Lemma dataOf_okResponse : forall (E : Env) (data : value) (w : World E),
  truthy data = true -> Api.dataOf E (Engine.okResponse data) w = (Return data, w).
Proof.
  intros E data w Hdata.
  unfold Api.dataOf, Api.throwUnlessOk, Api.resultWithData, Engine.okResponse,
    bind, settle, ret, throw.
  cbn [ok status json negb Z.leb Z.compare Pos.compare Pos.compare_cont andb get prop lookup].
  cbn. rewrite Hdata. reflexivity.
Qed.

(** What [after] resolves with is a present payload; what it throws when
    the response is not ok, and when an ok response carries no data. *)
Lemma after_returns :
  forall (E : Env) (c : call) (response : Response) (w w' : World E) (v : value),
    after E c response w = (Return v, w') ->
    truthy (payload c v) = true /\ truthy v = true.
Proof.
  intros E c response w w' v.
  assert (Hlist : (bind (Api.throwUnlessOk E response)
                     (fun _ => Api.resultWithData E response)) w = (Return v, w') ->
                  truthy (prop v "data") = true /\ truthy v = true).
  { unfold bind. destruct (Api.throwUnlessOk E response w) as [[u|e] w1]; [|discriminate].
    intros H. apply resultWithData_returns in H as [Hd [Hn Hu]]. split; [exact Hd|].
    destruct v; try reflexivity; cbn [prop truthy] in Hd; try discriminate Hd; contradiction. }
  assert (Hdata : Api.dataOf E response w = (Return v, w') -> truthy v = true).
  { unfold Api.dataOf, bind.
    destruct (Api.throwUnlessOk E response w) as [[u|e] w1]; [|discriminate].
    destruct (Api.resultWithData E response w1) as [[result|e] w2] eqn:Hres; [|discriminate].
    apply resultWithData_returns in Hres as [Hd _].
    unfold ret. intros H; injection H as <- _. exact Hd. }
  destruct c; cbn [after payload]; intros H;
    try (split; apply (Hdata H)); apply (Hlist H).
Qed.

Lemma run_returns_truthy : forall (E : Env) (c : call) (w w' : World E) (v : value),
  run E c w = (Return v, w') -> truthy v = true.
Proof.
  intros E c w w' v. destruct (run_fetch_after E c) as [url [init Hrun]].
  rewrite Hrun. unfold bind.
  destruct (fetch E url init w) as [[response|e] w1]; [|discriminate].
  intros H. apply (after_returns E c response w1 w' v H).
Qed.

Lemma after_not_ok :
  forall (E : Env) (c : call) (response : Response) (w : World E) (e : thrown),
    Api.throwUnlessOk E response w = (Throw e, w) ->
    after E c response w = (Throw e, w).
Proof.
  intros E c response w e H.
  destruct c; cbn [after]; unfold Api.dataOf, bind; rewrite H; reflexivity.
Qed.

Lemma after_missing :
  forall (E : Env) (c : call) (response : Response) (w : World E) (body : value),
    ok response = true -> json response = Return body -> body <> Null -> body <> Undefined ->
    truthy (prop body "data") = false ->
    after E c response w = (Throw (ErrorInstance "Error" "Invalid response: missing data"), w).
Proof.
  intros E c response w body Hok Hbody Hn Hu Hdata.
  destruct c; cbn [after]; unfold Api.dataOf, bind;
    rewrite (throwUnlessOk_ok E response w Hok),
            (resultWithData_missing E response w body Hbody Hn Hu Hdata); reflexivity.
Qed.

Lemma throwUnlessOk_nullish :
  forall (E : Env) (response : Response) (w : World E) (body : value),
    ok response = false -> json response = Return body -> body = Null \/ body = Undefined ->
    Api.throwUnlessOk E response w
    = (Throw (ErrorInstance "TypeError"
                ("Cannot read properties of " ++ ToString body ++ " (reading 'error')")), w).
Proof.
  intros E response w body Hok Hbody Hnullish.
  unfold Api.throwUnlessOk, bind, try_catch, settle, ret, throw.
  rewrite Hok, Hbody. cbn [negb]. rewrite (get_nullish body "error" Hnullish). reflexivity.
Qed.

Lemma resultWithData_nullish :
  forall (E : Env) (response : Response) (w : World E) (body : value),
    json response = Return body -> body = Null \/ body = Undefined ->
    Api.resultWithData E response w
    = (Throw (ErrorInstance "TypeError"
                ("Cannot read properties of " ++ ToString body ++ " (reading 'data')")), w).
Proof.
  intros E response w body Hbody Hnullish.
  unfold Api.resultWithData, bind, settle, ret, throw.
  rewrite Hbody, (get_nullish body "data" Hnullish). reflexivity.
Qed.

Lemma resultWithData_no_json :
  forall (E : Env) (response : Response) (w : World E) (e : thrown),
    json response = Throw e -> Api.resultWithData E response w = (Throw e, w).
Proof.
  intros E response w e He. unfold Api.resultWithData, bind, settle. rewrite He. reflexivity.
Qed.

Lemma resultWithData_present :
  forall (E : Env) (response : Response) (w : World E) (body : value),
    json response = Return body -> body <> Null -> body <> Undefined ->
    truthy (prop body "data") = true ->
    Api.resultWithData E response w = (Return body, w).
Proof.
  intros E response w body Hbody Hn Hu Hdata.
  unfold Api.resultWithData, bind, settle, ret, throw.
  rewrite Hbody, (get_present body "data" Hn Hu), Hdata. reflexivity.
Qed.

(** What [after] does with an ok response, by what [resultWithData]
    does with it. *)
Lemma after_ok_throws :
  forall (E : Env) (c : call) (response : Response) (w : World E) (e : thrown),
    ok response = true ->
    Api.resultWithData E response w = (Throw e, w) ->
    after E c response w = (Throw e, w).
Proof.
  intros E c response w e Hok H.
  destruct c; cbn [after]; unfold Api.dataOf, bind;
    rewrite (throwUnlessOk_ok E response w Hok), H; reflexivity.
Qed.

Lemma after_resolves :
  forall (E : Env) (c : call) (response : Response) (w : World E) (body : value),
    ok response = true -> json response = Return body -> body <> Null -> body <> Undefined ->
    truthy (prop body "data") = true ->
    exists v,
      after E c response w = (Return v, w)
      /\ payload c v = prop body "data"
      /\ (forall ownerId page limit, c = ListMemoryRecords ownerId page limit -> v = body).
Proof.
  intros E c response w body Hok Hbody Hn Hu Hdata.
  pose proof (resultWithData_present E response w body Hbody Hn Hu Hdata) as Hres.
  destruct c; cbn [after payload]; unfold Api.dataOf, bind, ret;
    rewrite (throwUnlessOk_ok E response w Hok), Hres;
    eexists; (split; [reflexivity|]); (split; [reflexivity|]);
    intros ownerId' page' limit' Hc; try discriminate Hc; reflexivity.
Qed.



(** Three answers to [createTruthRecord]: an error body, an ok body
    without data, an ok body with data. *)
Example createTruthRecord_answers :
  fst (Api.createTruthRecord
         (constantEnv (Return (mkResponse 500 (Return (Obj [("message", Str "boom")])))))
         (Obj []) tt)
  = Throw (ErrorInstance "Error" "boom")
  /\ fst (Api.createTruthRecord
            (constantEnv (Return (mkResponse 200 (Return (Obj [("data", Null)])))))
            (Obj []) tt)
     = Throw (ErrorInstance "Error" "Invalid response: missing data")
  /\ fst (Api.createTruthRecord
            (constantEnv (Return (mkResponse 200 (Return (Obj [("data", Obj [("id", Str "r1")])])))))
            (Obj []) tt)
     = Return (Obj [("id", Str "r1")]).
Proof. repeat split. Qed.

End ApiDataOrThrow.

(** ** VerifyRecord: [handleVerify] always ends with a verdict *)

Section HandleVerify.
Import JS Web VerifyRecord.

Lemma verdictOf_returns : forall (E : Env) (recordId : string) (w : World E),
  exists v w', verdictOf E recordId w = (Return v, w').
Proof.
  intros E recordId w. unfold verdictOf, try_catch, bind, settle, ret.
  destruct (Api.verifyRecord E recordId w) as [[result|e] w1]; [|eauto].
  destruct (get result "isValid"); [|eauto].
  destruct (get result "integrityValid"); [|eauto].
  destruct (get result "signatureValid"); [|eauto].
  destruct (get result "timestampValid"); [|eauto].
  destruct (get result "message"); eauto.
Qed.

Lemma verdictOf_throw : forall (E : Env) (recordId : string) (w w' : World E) (err : thrown),
  Api.verifyRecord E recordId w = (Throw err, w') ->
  verdictOf E recordId w = (Return (failedVerdict err), w').
Proof.
  intros E recordId w w' err H. unfold verdictOf, try_catch, bind. rewrite H. reflexivity.
Qed.

(** C5. With a record id, [handleVerify] always leaves a verdict in the
    state and clears [isVerifying]; and for every error a verification
    attempt throws (a [fetch] that fails, a response that is not ok, a
    body that is no JSON or has no data) the verdict is isValid false,
    integrityValid false, signatureValid false, timestampValid null, with
    the error's message. *)
Theorem handleVerify_folds_errors :
  forall (E : Env) (recordId : string) (s : State) (w : World E),
    recordId <> "" ->
    (exists v, verificationResult (fst (handleVerify E (Some recordId) s w)) = Some v)
    /\ isVerifying (fst (handleVerify E (Some recordId) s w)) = false
    /\ (forall err w', Api.verifyRecord E recordId w = (Throw err, w') ->
          handleVerify E (Some recordId) s w
          = (mkState (record s) (publicKey s) (verificationBundle s)
               (Some (mkVerdict (Bool false) (Bool false) (Bool false) Null
                        (Str (messageOr "Verification failed" err))))
               false,
             w')).
Proof.
  intros E recordId s w Hid. unfold handleVerify.
  apply String.eqb_neq in Hid. rewrite Hid.
  split; [|split].
  - destruct (verdictOf_returns E recordId w) as [v [w' Hv]]. rewrite Hv. exists v. reflexivity.
  - destruct (verdictOf E recordId w) as [[v|e] w']; reflexivity.
  - intros err w' Hthrow. rewrite (verdictOf_throw E recordId w w' err Hthrow). reflexivity.
Qed.

(** The theorem applies: a world without network, where [fetch] rejects
    with a TypeError. *)
Lemma handleVerify_folds_errors_witness :
  handleVerify (constantEnv (Throw (ErrorInstance "TypeError" "Failed to fetch")))
    (Some "r1") (mkState Null Null Null None false) tt
  = (mkState Null Null Null
       (Some (mkVerdict (Bool false) (Bool false) (Bool false) Null (Str "Failed to fetch")))
       false,
     tt).
Proof.
  apply (proj2 (proj2 (handleVerify_folds_errors
                         (constantEnv (Throw (ErrorInstance "TypeError" "Failed to fetch")))
                         "r1" (mkState Null Null Null None false) tt
                         ltac:(discriminate)))
           (ErrorInstance "TypeError" "Failed to fetch") tt eq_refl).
Defined.

(** The other errors of an attempt: a response that is not ok and a body
    that is no JSON. *)
Example handleVerify_malformed :
  verificationResult
    (fst (handleVerify (constantEnv (Return (mkResponse 200 notJSON)))
            (Some "r1") (mkState Null Null Null None false) tt))
  = Some (failedVerdict (ErrorInstance "SyntaxError" "Unexpected token '<'"))
  /\ verificationResult
       (fst (handleVerify
               (constantEnv (Return (mkResponse 404 (Return (Obj [("error", Str "Record not found")])))))
               (Some "r1") (mkState Null Null Null None false) tt))
     = Some (failedVerdict (ErrorInstance "Error" "Record not found")).
Proof. split; reflexivity. Qed.

End HandleVerify.

(** ** The shape of a verification bundle *)

Section BundleShape.
Import JS Web.

(** The claim fails on the code.  A bundle that the server sends as the
    client's interface declares it is exported as it came: it has no id
    field and has a recordId field, and its publicKey has a createdAt
    field.  And the object the page exports without a bundle has no
    publicKeyVersion, and its publicKey is a string. *)
Lemma bundle_not_as_specified :
  VerifyRecord.exported pageWithBundle = sampleBundle
  /\ shapedAsSpecified (VerifyRecord.exported pageWithBundle) = false
  /\ hasKey "id" (VerifyRecord.exported pageWithBundle) = false
  /\ hasKey "recordId" (VerifyRecord.exported pageWithBundle) = true
  /\ hasKey "createdAt" (prop (VerifyRecord.exported pageWithBundle) "publicKey") = true
  /\ shapedAsSpecified (VerifyRecord.exported pageWithoutBundle) = false
  /\ hasKey "publicKeyVersion" (VerifyRecord.exported pageWithoutBundle) = false
  /\ prop (VerifyRecord.exported pageWithoutBundle) "publicKey"
     = Str "-----BEGIN PUBLIC KEY-----".
Proof. repeat split. Qed.

Lemma flat_map_filter : forall (A B : Type) (f : A -> list B) (p : A -> bool) (l : list A),
  (forall x, p x = false -> f x = []) -> flat_map f (filter p l) = flat_map f l.
Proof.
  intros A B f p l H. induction l as [|x l IH]; [reflexivity|].
  cbn [filter flat_map]. destruct (p x) eqn:Hp.
  - cbn [flat_map]. now rewrite IH.
  - now rewrite (H x Hp), IH.
Qed.

(** [JSON.stringify] leaves out a property whose value is [undefined]. *)
Lemma serialize_definedOnly : forall (gap indent : string) (v : value),
  JSON.serialize gap indent v = JSON.serialize gap indent (definedOnly v).
Proof.
  intros gap indent v. destruct v as [| | | | | |props]; try reflexivity.
  cbn [definedOnly JSON.serialize].
  rewrite flat_map_filter; [reflexivity|].
  intros [k x] Hx. cbn [snd] in Hx. destruct x; try discriminate Hx. reflexivity.
Qed.

Lemma truthy_isDefined : forall v, truthy v = true -> isDefined v = true.
Proof. intros v H; destruct v; try reflexivity; discriminate H. Qed.

Lemma keys_of_fields : forall (record : value) (names : list string),
  map fst (filter (fun kx => isDefined (snd kx)) (map (fun k => (k, prop record k)) names))
  = filter (fun k => isDefined (prop record k)) names.
Proof.
  intros record names. induction names as [|k names IH]; [reflexivity|].
  cbn [map filter snd]. destruct (isDefined (prop record k)); cbn [map fst]; now rewrite IH.
Qed.

Lemma keys_of_spread : forall (c : value) (k : string) (x : value),
  map fst (filter (fun kx => isDefined (snd kx)) (spreadWhen c k x))
  = if truthy c && isDefined x then [k] else [].
Proof.
  intros c k x. unfold spreadWhen. destruct (truthy c); [|reflexivity].
  cbn [filter snd andb]. destruct (isDefined x); reflexivity.
Qed.

(** C3, amended. When the page holds a bundle, what it exports is that
    bundle as it is; and the bundle it holds after loading is what
    [getVerificationBundle] resolved with, the data of the server's
    answer, whatever truthy value that is: no field of it is checked.
    When the page holds no bundle, what it exports has, of the
    fields id, ownerId, title, content, eventTimestamp, sealedTimestamp,
    contentHash, signature, version, status and sealingVersion, those the
    record has, then location, publicKey (the PEM text of the key) and
    timestampProof when the page holds them, and no other field: it is
    never of the specified shape. *)
Theorem bundle_shape :
  (forall s : VerifyRecord.State,
     truthy (VerifyRecord.verificationBundle s) = true ->
     VerifyRecord.exported s = VerifyRecord.verificationBundle s)
  /\ (forall (E : Env) (keySettlesFirst : bool) (recordId : string)
             (s : VerifyRecord.Loaded) (w w1 w2 w3 : World E) (r key bundle : value),
        recordId <> "" ->
        Api.getTruthRecord E recordId w = (Return r, w1) ->
        Api.getPublicKey E w1 = (Return key, w2) ->
        Api.getVerificationBundle E recordId w2 = (Return bundle, w3) ->
        VerifyRecord.loadedBundle
          (fst (VerifyRecord.loadPage E keySettlesFirst (Some recordId) s w))
        = bundle
        /\ forall verdict verifying,
             VerifyRecord.exported (VerifyRecord.mkState r key bundle verdict verifying)
             = bundle)
  /\ (forall (bundle : value) (recordId : string),
        truthy bundle = true -> recordId <> "" ->
        VerifyRecord.loadedBundle
          (fst (VerifyRecord.loadPage (constantEnv (Return (Engine.okResponse bundle)))
                  false (Some recordId) VerifyRecord.initialLoaded tt))
        = bundle)
  /\ (forall s : VerifyRecord.State,
        truthy (VerifyRecord.verificationBundle s) = false ->
        keys (definedOnly (VerifyRecord.exported s))
        = (filter (fun k => isDefined (prop (VerifyRecord.record s) k)) recordFieldsExported
           ++ (if truthy (prop (VerifyRecord.record s) "location") then ["location"] else [])
           ++ (if truthy (VerifyRecord.publicKey s)
                  && isDefined (prop (VerifyRecord.publicKey s) "publicKeyPEM")
               then ["publicKey"] else [])
           ++ (if truthy (prop (VerifyRecord.record s) "timestampProof")
               then ["timestampProof"] else []))%list
        /\ VerifyRecord.exportShown s
           = JSON.stringify2 (definedOnly (VerifyRecord.exported s))
        /\ (truthy (VerifyRecord.publicKey s) = true ->
            prop (VerifyRecord.exported s) "publicKey"
            = prop (VerifyRecord.publicKey s) "publicKeyPEM")
        /\ shapedAsSpecified (VerifyRecord.exported s) = false).
Proof.
  split; [|split; [|split]].
  - intros s Hbundle. unfold VerifyRecord.exported. rewrite Hbundle. reflexivity.
  - intros E k recordId s w w1 w2 w3 r key bundle Hid Hr Hkey Hb.
    apply String.eqb_neq in Hid. split.
    + unfold VerifyRecord.loadPage, VerifyRecord.fetchData, try_catch.
      rewrite Hid, Hr, Hkey, Hb. reflexivity.
    + intros verdict verifying. unfold VerifyRecord.exported.
      cbn [VerifyRecord.verificationBundle].
      rewrite (run_returns_truthy E (GetVerificationBundle recordId) w2 w3 bundle Hb).
      reflexivity.
  - intros bundle recordId Hbundle Hid. apply String.eqb_neq in Hid.
    unfold VerifyRecord.loadPage, VerifyRecord.fetchData. rewrite Hid.
    unfold Api.getTruthRecord, Api.getPublicKey, Api.getVerificationBundle, try_catch, bind.
    cbn [fetch constantEnv].
    repeat (rewrite (dataOf_okResponse (constantEnv (Return (Engine.okResponse bundle)))
                       bundle tt Hbundle); cbv beta iota).
    reflexivity.
  - intros s Hbundle. unfold VerifyRecord.exportShown, VerifyRecord.exported.
    rewrite Hbundle.
    split; [|split; [|split]].
    + unfold VerifyRecord.exportFallback, definedOnly, keys.
      change [("id", prop (VerifyRecord.record s) "id");
              ("ownerId", prop (VerifyRecord.record s) "ownerId");
              ("title", prop (VerifyRecord.record s) "title");
              ("content", prop (VerifyRecord.record s) "content");
              ("eventTimestamp", prop (VerifyRecord.record s) "eventTimestamp");
              ("sealedTimestamp", prop (VerifyRecord.record s) "sealedTimestamp");
              ("contentHash", prop (VerifyRecord.record s) "contentHash");
              ("signature", prop (VerifyRecord.record s) "signature");
              ("version", prop (VerifyRecord.record s) "version");
              ("status", prop (VerifyRecord.record s) "status");
              ("sealingVersion", prop (VerifyRecord.record s) "sealingVersion")]
        with (map (fun k => (k, prop (VerifyRecord.record s) k)) recordFieldsExported).
      rewrite !filter_app, !map_app, keys_of_fields, !keys_of_spread.
      destruct (truthy (prop (VerifyRecord.record s) "location")) eqn:Hl;
        [rewrite (truthy_isDefined _ Hl)|];
        (destruct (truthy (prop (VerifyRecord.record s) "timestampProof")) eqn:Ht;
         [rewrite (truthy_isDefined _ Ht)|]); reflexivity.
    + apply serialize_definedOnly.
    + intros Hkey. unfold VerifyRecord.exportFallback, spreadWhen. rewrite Hkey.
      destruct (truthy (prop (VerifyRecord.record s) "location")); reflexivity.
    + unfold VerifyRecord.exportFallback, spreadWhen, shapedAsSpecified.
      destruct (truthy (prop (VerifyRecord.record s) "location")),
        (truthy (VerifyRecord.publicKey s)),
        (truthy (prop (VerifyRecord.record s) "timestampProof")); reflexivity.
Qed.

End BundleShape.

(** ** The hash preimage the verification page shows *)

Section ShownPreimage.
Import JS Web.

(** The claim fails on the code.  On the record r1 (owner u1, title T,
    content hello) the text the page shows as the content the hash is
    computed from is indented over seven lines with the keys in the
    order id, ownerId, title, content, eventTimestamp; the canonical form
    has the keys sorted and no whitespace; the two texts hash to
    different digests, and it is the canonical form that hashes to the
    record's content hash. *)
Lemma shown_preimage_not_canonical :
  VerifyRecord.sealableContentShown sampleRecord
  = Some (String.concat (str1 LF)
            ["{";
             "  " ++ q "id" ++ ": " ++ q "r1" ++ ",";
             "  " ++ q "ownerId" ++ ": " ++ q "u1" ++ ",";
             "  " ++ q "title" ++ ": " ++ q "T" ++ ",";
             "  " ++ q "content" ++ ": " ++ q "hello" ++ ",";
             "  " ++ q "eventTimestamp" ++ ": " ++ q "2024-01-15T14:30:00.000Z";
             "}"])
  /\ Engine.canonicalize sampleContent
     = Some ("{" ++ q "content" ++ ":" ++ q "hello" ++ ","
             ++ q "eventTimestamp" ++ ":" ++ q "2024-01-15T14:30:00.000Z" ++ ","
             ++ q "id" ++ ":" ++ q "r1" ++ ","
             ++ q "ownerId" ++ ":" ++ q "u1" ++ ","
             ++ q "title" ++ ":" ++ q "T" ++ "}")
  /\ option_map Engine.digest (Engine.canonicalize sampleContent)
     = Some "f89e6387b16a59aa792d01d7b18a2fd4630c8338cd0915104258682b360c17c3"
  /\ prop sampleRecord "contentHash"
     = Str "f89e6387b16a59aa792d01d7b18a2fd4630c8338cd0915104258682b360c17c3"
  /\ option_map Engine.digest (VerifyRecord.sealableContentShown sampleRecord)
     = Some "713ca98300781b4b240e23e4c594a770932c8d763960763d7447380651bb553d".
Proof. repeat split; vm_compute; reflexivity. Qed.

Lemma append_assoc : forall a b c : string, (a ++ b) ++ c = a ++ b ++ c.
Proof.
  induction a as [|x a IH]; intros b c; [reflexivity|].
  cbn [append]. now rewrite IH.
Qed.

(** A text [JSON.stringify(v, null, 2)] gives for an object is the
    empty braces or starts a new line after the opening brace. *)
Lemma stringify2_object : forall props : list (string * value),
  JSON.stringify2 (Obj props) = Some "{}"
  \/ exists rest, JSON.stringify2 (Obj props) = Some (String "{" (String LF rest)).
Proof.
  intros props. unfold JSON.stringify2. cbn [JSON.serialize].
  destruct (flat_map _ props) as [|x partial]; [left; reflexivity|].
  right. change ("  " =? "") with false. cbv iota. eexists. reflexivity.
Qed.

(** A canonical form starts with the opening brace and a quoted key. *)
Lemma canonicalize_starts : forall (c : Engine.SealableContent) (s : string),
  Engine.canonicalize c = Some s -> exists rest, s = String "{" (String dquote rest).
Proof.
  intros c s. unfold Engine.canonicalize. destruct (Engine.wellFormed c); [|discriminate].
  unfold Engine.sealableValue, optional, JSON.stringify.
  destruct (Engine.location c) as [l|].
  - cbn [app map Engine.sortKeys Engine.sortProps fold_right Engine.insertProp fst snd].
    cbn -[JSON.quote Engine.sortKeys].
    intros H. injection H as <-. eexists. reflexivity.
  - cbn [app map Engine.sortKeys Engine.sortProps fold_right Engine.insertProp fst snd].
    cbn -[JSON.quote Engine.sortKeys].
    intros H. injection H as <-. eexists. reflexivity.
Qed.

(** C1, amended. The text the verification page shows as the content
    the hash is computed from is [JSON.stringify] with an indentation of
    two spaces of the object of id, ownerId, title, content,
    eventTimestamp and, when the record has one, location, in this
    order: one line for the opening brace, one for each field, one for
    the closing brace.  Whatever the record, this is no canonical form:
    the canonical form of the same fields has the keys sorted and no
    white space between its tokens, and it is the text to hash. *)
Theorem shown_preimage_is_pretty_printed : forall record : value,
  (forall c : Engine.SealableContent,
     VerifyRecord.sealableContentShown record <> Engine.canonicalize c)
  /\ (forall i o t c e : string,
        prop record "id" = Str i -> prop record "ownerId" = Str o ->
        prop record "title" = Str t -> prop record "content" = Str c ->
        prop record "eventTimestamp" = Str e ->
        (truthy (prop record "location") = false ->
         VerifyRecord.sealableContentShown record
         = Some (String.concat (str1 LF)
                   ["{";
                    "  " ++ q "id" ++ ": " ++ q i ++ ",";
                    "  " ++ q "ownerId" ++ ": " ++ q o ++ ",";
                    "  " ++ q "title" ++ ": " ++ q t ++ ",";
                    "  " ++ q "content" ++ ": " ++ q c ++ ",";
                    "  " ++ q "eventTimestamp" ++ ": " ++ q e;
                    "}"]))
        /\ (forall text : string,
              truthy (prop record "location") = true ->
              JSON.serialize "  " "  " (prop record "location") = Some text ->
              VerifyRecord.sealableContentShown record
              = Some (String.concat (str1 LF)
                        ["{";
                         "  " ++ q "id" ++ ": " ++ q i ++ ",";
                         "  " ++ q "ownerId" ++ ": " ++ q o ++ ",";
                         "  " ++ q "title" ++ ": " ++ q t ++ ",";
                         "  " ++ q "content" ++ ": " ++ q c ++ ",";
                         "  " ++ q "eventTimestamp" ++ ": " ++ q e ++ ",";
                         "  " ++ q "location" ++ ": " ++ text;
                         "}"]))
        /\ (Engine.wellFormed (Engine.mkContent i o t c e None) = true ->
            Engine.canonicalize (Engine.mkContent i o t c e None)
            = Some ("{" ++ q "content" ++ ":" ++ q c ++ ","
                    ++ q "eventTimestamp" ++ ":" ++ q e ++ ","
                    ++ q "id" ++ ":" ++ q i ++ ","
                    ++ q "ownerId" ++ ":" ++ q o ++ ","
                    ++ q "title" ++ ":" ++ q t ++ "}"))).
Proof.
  intros record. split.
  - intros c Heq. unfold VerifyRecord.sealableContentShown in Heq.
    destruct (Engine.canonicalize c) as [s|] eqn:Hc.
    + destruct (canonicalize_starts c s Hc) as [rest ->].
      destruct (stringify2_object
                  ([("id", prop record "id"); ("ownerId", prop record "ownerId");
                    ("title", prop record "title"); ("content", prop record "content");
                    ("eventTimestamp", prop record "eventTimestamp")]
                   ++ spreadWhen (prop record "location") "location"
                        (prop record "location"))%list) as [H | [rest' H]];
        rewrite H in Heq; discriminate Heq.
    + destruct (stringify2_object
                  ([("id", prop record "id"); ("ownerId", prop record "ownerId");
                    ("title", prop record "title"); ("content", prop record "content");
                    ("eventTimestamp", prop record "eventTimestamp")]
                   ++ spreadWhen (prop record "location") "location"
                        (prop record "location"))%list) as [H | [rest' H]];
        rewrite H in Heq; discriminate Heq.
  - intros i o t c e Hi Ho Ht Hc He.
    unfold VerifyRecord.sealableContentShown, JSON.stringify2, spreadWhen, q.
    rewrite Hi, Ho, Ht, Hc, He.
    split; [|split].
    + intros Hl. rewrite Hl. cbn [app JSON.serialize flat_map].
      change ("  " =? "") with false. cbv iota.
      cbn [String.concat].
      repeat first [rewrite !append_assoc | progress cbn [append str1]].
      reflexivity.
    + intros text Hl Htext. rewrite Hl. cbn [app flat_map JSON.serialize].
      cbn [append] in Htext. cbn [append]. rewrite Htext.
      change ("  " =? "") with false. cbv iota.
      cbn [app String.concat].
      repeat first [rewrite !append_assoc | progress cbn [append str1]].
      reflexivity.
    + intros Hwell. unfold Engine.canonicalize. rewrite Hwell.
      unfold Engine.sealableValue, optional, JSON.stringify.
      cbn [Engine.location Engine.id Engine.ownerId Engine.title Engine.content
           Engine.eventTimestamp app map Engine.sortKeys Engine.sortProps fold_right
           Engine.insertProp fst snd].
      cbn -[JSON.quote].
      repeat first [rewrite !append_assoc | progress cbn [append str1]].
      reflexivity.
Qed.

End ShownPreimage.

(** ** Sealing, then verifying *)

Section SealThenVerify.
Import JS Web.
Local Open Scope async_scope.

Variable sign : string -> string -> string.
Variable verifySignature : string -> string -> string -> bool.
Variable attest : string -> option string.
Variable verifyAttestation : string -> string -> bool.

(** The versions in force, the signer's key pair and the sealing time. *)
Variables sealingVersion keyVersion privateKey publicKey now : string.
Variable trustedPublicKeys : list (string * string).

(** Correctly trusted keys: the key version resolves to the public half
    of the signing key, under which every signature of the private half
    verifies; and the time authority's proofs verify against the digest
    they attest. *)
Hypothesis key_trusted : Engine.resolveKey keyVersion trustedPublicKeys = Some publicKey.
Hypothesis signature_verifies :
  forall d, verifySignature d (sign d privateKey) publicKey = true.
Hypothesis attestation_verifies :
  forall d proof, attest d = Some proof -> verifyAttestation proof d = true.

Local Abbreviation sealNow :=
  (Engine.seal sign attest sealingVersion keyVersion (Some privateKey) now).
Local Abbreviation verifyNow :=
  (Engine.verify verifySignature verifyAttestation trustedPublicKeys).

(** Well-formed content seals, and what sealing gives verifies. *)
Lemma seal_well_formed : forall c,
  Engine.wellFormed c = true ->
  exists canonical,
    Engine.canonicalize c = Some canonical
    /\ sealNow c
       = inr (Engine.mkSealed c (Engine.digest canonical)
                (sign (Engine.digest canonical) privateKey)
                sealingVersion keyVersion now (attest (Engine.digest canonical)) "SEALED").
Proof.
  intros c Hwf. unfold sealNow, Engine.seal.
  destruct (Engine.canonicalize c) as [canonical|] eqn:Hcanon.
  - exists canonical. split; reflexivity.
  - unfold Engine.canonicalize in Hcanon. rewrite Hwf in Hcanon. discriminate Hcanon.
Qed.

Lemma verify_sealed : forall c r,
  sealNow c = inr r ->
  verifyNow r
  = Engine.mkVerdict true true true
      (match Engine.timestampProof r with Some _ => Some true | None => None end)
      "Record verified".
Proof.
  intros c r Hseal. unfold sealNow, Engine.seal in Hseal.
  destruct (Engine.canonicalize c) as [canonical|] eqn:Hcanon; [|discriminate Hseal].
  injection Hseal as <-.
  unfold verifyNow, Engine.verify.
  cbn [Engine.sealed Engine.contentHash Engine.signature Engine.publicKeyVersion
       Engine.timestampProof].
  rewrite Hcanon, String.eqb_refl, key_trusted, signature_verifies.
  destruct (attest (Engine.digest canonical)) as [proof|] eqn:Hattest.
  - rewrite (attestation_verifies _ _ Hattest). reflexivity.
  - reflexivity.
Qed.


(** C4. For every record without a timestamp proof the verifier's verdict
    has a null timestamp validity, and its isValid is the conjunction of
    integrity and signature validity; when the verify-record endpoint
    answers with that verdict, the verdict [handleVerify] stores has
    timestampValid [null], not [false], and isValid as the verifier
    decided it. *)
Theorem absent_timestamp_proof_is_null :
  forall (E : Env) (r : Engine.SealedRecord) (recordId : string) (s : VerifyRecord.State)
         (w w' : World E),
    Engine.timestampProof r = None ->
    recordId <> "" ->
    fetch E (Api.API_BASE_URL E ++ "/verify-record?id=" ++ recordId)
      (mkInit None (Api.getHeaders E) None) w
    = (Return (Engine.okResponse (Engine.verdictValue recordId (verifyNow r))), w') ->
    Engine.timestampValid (verifyNow r) = None
    /\ Engine.isValid (verifyNow r)
       = Engine.integrityValid (verifyNow r) && Engine.signatureValid (verifyNow r)
    /\ exists verdict,
         VerifyRecord.handleVerify E (Some recordId) s w
         = (VerifyRecord.mkState (VerifyRecord.record s) (VerifyRecord.publicKey s)
              (VerifyRecord.verificationBundle s) (Some verdict) false,
            w')
         /\ VerifyRecord.timestampValid verdict = Null
         /\ VerifyRecord.isValid verdict
            = Bool (Engine.integrityValid (verifyNow r) && Engine.signatureValid (verifyNow r)).
Proof.
  intros E r recordId s w w' Hproof Hid Hfetch.
  assert (Hts : Engine.timestampValid (verifyNow r) = None).
  { unfold verifyNow, Engine.verify. rewrite Hproof.
    destruct (Engine.canonicalize (Engine.sealed r)); reflexivity. }
  assert (Hvalid : Engine.isValid (verifyNow r)
                   = Engine.integrityValid (verifyNow r) && Engine.signatureValid (verifyNow r)).
  { unfold verifyNow, Engine.verify. rewrite Hproof.
    destruct (Engine.canonicalize (Engine.sealed r)); cbn; [|reflexivity].
    now rewrite andb_true_r. }
  split; [exact Hts|]. split; [exact Hvalid|].
  eexists. split; [|split].
  - unfold VerifyRecord.handleVerify. apply String.eqb_neq in Hid. rewrite Hid.
    unfold VerifyRecord.verdictOf, Api.verifyRecord, try_catch.
    unfold bind at 1 2. rewrite Hfetch, dataOf_okResponse by reflexivity.
    reflexivity.
  - cbn. rewrite Hts. reflexivity.
  - cbn. rewrite Hvalid. reflexivity.
Qed.

End SealThenVerify.

(** ** The engine's theorems on the toy server *)

Section OnToyServer.
Import JS Web.
Local Open Scope async_scope.


(** The theorem of the absent timestamp proof applies: a record sealed
    without a proof, verified through [handleVerify]. *)
Lemma absent_timestamp_proof_is_null_witness :
  Engine.timestampValid (toyVerify (sealedWith noAttest)) = None
  /\ Engine.isValid (toyVerify (sealedWith noAttest))
     = Engine.integrityValid (toyVerify (sealedWith noAttest))
       && Engine.signatureValid (toyVerify (sealedWith noAttest))
  /\ exists verdict,
       VerifyRecord.handleVerify
         (constantEnv (Return (Engine.okResponse
                                 (Engine.verdictValue "r1" (toyVerify (sealedWith noAttest))))))
         (Some "r1") (VerifyRecord.mkState Null Null Null None false) tt
       = (VerifyRecord.mkState Null Null Null (Some verdict) false, tt)
       /\ VerifyRecord.timestampValid verdict = Null
       /\ VerifyRecord.isValid verdict
          = Bool (Engine.integrityValid (toyVerify (sealedWith noAttest))
                  && Engine.signatureValid (toyVerify (sealedWith noAttest))).
Proof.
  apply (absent_timestamp_proof_is_null toyVerifySignature toyVerifyAttestation toyKeys
           (constantEnv (Return (Engine.okResponse
                                   (Engine.verdictValue "r1" (toyVerify (sealedWith noAttest))))))
           (sealedWith noAttest) "r1" (VerifyRecord.mkState Null Null Null None false) tt tt
           eq_refl).
  - discriminate.
  - reflexivity.
Defined.

(** The verdicts of the toy verifier: valid with a proof, valid without
    one (timestamp validity null), invalid once the content is changed. *)
Example toy_verdicts :
  toyVerify (sealedWith toyAttest)
  = Engine.mkVerdict true true true (Some true) "Record verified"
  /\ toyVerify (sealedWith noAttest)
     = Engine.mkVerdict true true true None "Record verified"
  /\ toyVerify (Engine.mkSealed
                  (Engine.mkContent "r1" "u1" "T" "hullo" "2024-01-15T14:30:00.000Z" None)
                  (Engine.contentHash (sealedWith noAttest))
                  (Engine.signature (sealedWith noAttest)) "1.0.0" "v1"
                  "2024-01-15T15:00:00.000Z" None "SEALED")
     = Engine.mkVerdict false false false None "Content hash mismatch".
Proof. repeat split; vm_compute; reflexivity. Qed.

End OnToyServer.

(* ================================================================== *)
(** * Further properties of the sources *)
(* ================================================================== *)

(** ** FileUpload: removing files, the file limit, alerts and hashes *)

Section FileList.
Import JS Web FileUpload.

Variable readAsDataURL : File -> option string.
Variable megabytes : Z -> string.
Variable hashRejection : File -> option (nat * thrown).
Variable files : list FileWithHash.
Variable maxFiles : Z.
Variable maxSize : Z.
Variable acceptedTypes : option (list string).

Local Abbreviation okFile := (passes maxSize acceptedTypes).
Local Abbreviation added := (processed readAsDataURL).
Local Abbreviation isHashed := (hashed hashRejection).
Local Abbreviation checkOne :=
  (processOne readAsDataURL megabytes hashRejection maxSize acceptedTypes).
Local Abbreviation addFiles :=
  (processFiles readAsDataURL megabytes hashRejection files maxFiles maxSize acceptedTypes).

Lemma withoutIndex_spec : forall (A : Type) (l : list A) (index i : Z),
  withoutIndex index i l
  = if ((i <=? index) && (index <? i + Z.of_nat (List.length l)))%Z
    then (firstn (Z.to_nat (index - i)) l ++ skipn (S (Z.to_nat (index - i))) l)%list
    else l.
Proof.
  induction l as [|x l IH]; intros index i.
  - cbn. destruct ((i <=? index) && (index <? i + 0))%Z; destruct (Z.to_nat (index - i)); reflexivity.
  - cbn [withoutIndex]. rewrite IH. clear IH.
    destruct (i =? index)%Z eqn:Hi; cbn [negb].
    + apply Z.eqb_eq in Hi. subst i.
      replace ((index <=? index) && (index <? index + Z.of_nat (List.length (x :: l))))%Z
        with true
        by (symmetry; apply andb_true_iff; split; [apply Z.leb_le | apply Z.ltb_lt];
            cbn [List.length]; lia).
      replace ((index + 1 <=? index)
               && (index <? index + 1 + Z.of_nat (List.length l)))%Z with false
        by (symmetry; apply andb_false_iff; left; apply Z.leb_gt; lia).
      rewrite Z.sub_diag. reflexivity.
    + apply Z.eqb_neq in Hi.
      destruct ((i <=? index) && (index <? i + Z.of_nat (List.length (x :: l))))%Z eqn:Hin.
      * apply andb_true_iff in Hin as [Hlo Hhi].
        apply Z.leb_le in Hlo. apply Z.ltb_lt in Hhi. cbn [List.length] in Hhi.
        replace ((i + 1 <=? index) && (index <? i + 1 + Z.of_nat (List.length l)))%Z
          with true
          by (symmetry; apply andb_true_iff; split; [apply Z.leb_le | apply Z.ltb_lt]; lia).
        replace (Z.to_nat (index - i)) with (S (Z.to_nat (index - (i + 1)))) by lia.
        reflexivity.
      * replace ((i + 1 <=? index) && (index <? i + 1 + Z.of_nat (List.length l)))%Z
          with false; [reflexivity|].
        symmetry. apply andb_false_iff. apply andb_false_iff in Hin as [Hlo | Hhi].
        -- left. apply Z.leb_gt. apply Z.leb_gt in Hlo. lia.
        -- right. apply Z.ltb_ge. apply Z.ltb_ge in Hhi. cbn [List.length] in Hhi. lia.
Qed.

(** X1. [removeFile(index)] calls [onFilesChange] once: with the list
    without its element at [index] (the others in order, one element
    fewer) when [index] is a position of the list, and with the list
    unchanged when it is not. *)
Theorem removeFile_removes_one : forall index : Z,
  onFilesChangeCalls (removeFile files index)
  = [if ((0 <=? index) && (index <? Z.of_nat (List.length files)))%Z
     then (firstn (Z.to_nat index) files ++ skipn (S (Z.to_nat index)) files)%list
     else files]
  /\ Forall (fun l => List.length l
                      = if ((0 <=? index) && (index <? Z.of_nat (List.length files)))%Z
                        then Nat.pred (List.length files) else List.length files)
       (onFilesChangeCalls (removeFile files index)).
Proof.
  intros index. unfold removeFile. cbn [onFilesChangeCalls flat_map app].
  rewrite withoutIndex_spec. rewrite Z.sub_0_r, Z.add_0_l.
  split; [reflexivity|].
  constructor; [|constructor].
  destruct ((0 <=? index) && (index <? Z.of_nat (List.length files)))%Z eqn:Hin; [|reflexivity].
  apply andb_true_iff in Hin as [Hlo Hhi]. apply Z.leb_le in Hlo. apply Z.ltb_lt in Hhi.
  rewrite List.length_app, length_firstn, length_skipn. lia.
Qed.

(** X2. Whatever list [processFiles] hands to [onFilesChange] has at most
    [maxFiles] entries: a batch never takes the list past the limit. *)
Theorem processFiles_keeps_limit : forall batch : list File,
  Forall (fun l => (Z.of_nat (List.length l) <= maxFiles)%Z)
    (onFilesChangeCalls (addFiles batch)).
Proof.
  intros batch. unfold FileUpload.processFiles.
  destruct (Z.of_nat (List.length files) + Z.of_nat (List.length batch) >? maxFiles)%Z eqn:Hcount;
    [constructor|].
  destruct (forallb okFile batch && forallb isHashed batch) eqn:Hall.
  - apply andb_true_iff in Hall as [Hpass Hhash].
    rewrite (promiseAll_passes readAsDataURL megabytes hashRejection maxSize acceptedTypes
               batch Hpass Hhash).
    cbn [onFilesChangeCalls flat_map app]. constructor; [|constructor].
    rewrite List.length_app, length_map. rewrite Z.gtb_ltb in Hcount. apply Z.ltb_ge in Hcount. lia.
  - destruct (promiseAll_fails readAsDataURL megabytes hashRejection maxSize acceptedTypes
                batch Hall) as [e He].
    rewrite He. constructor.
Qed.

Lemma promiseAll_first_failure : forall (good rest : list File) (bad : File) (e : thrown),
  forallb okFile good = true ->
  checkOne bad = Rejected e ->
  promiseAll (map checkOne (good ++ bad :: rest)) = Throw e.
Proof.
  intros good rest bad e Hgood Hbad. unfold promiseAll.
  assert (Hfirst : firstRejected (map checkOne (good ++ bad :: rest)) = Some e).
  { induction good as [|f good IH].
    - cbn [app map firstRejected]. rewrite Hbad. reflexivity.
    - cbn [forallb] in Hgood. apply andb_true_iff in Hgood as [Hf Hgood].
      cbn [app map].
      rewrite (processOne_not_rejected readAsDataURL megabytes hashRejection maxSize
                 acceptedTypes f _ Hf).
      apply IH, Hgood. }
  rewrite Hfirst. reflexivity.
Qed.

(** X3. When a batch fits under the limit and some file of it fails a
    check, [processFiles] raises exactly one alert, for the first failing
    file in batch order: the size message when that file is too large
    (also when its type is not accepted either), the type message
    otherwise; the processing flag is set before and cleared after, and
    [onFilesChange] is not called. *)
Theorem processFiles_alerts_first_failure :
  forall (good rest : list File) (bad : File),
    (Z.of_nat (List.length files) + Z.of_nat (List.length (good ++ bad :: rest)) >? maxFiles)%Z
    = false ->
    forallb okFile good = true ->
    okFile bad = false ->
    addFiles (good ++ bad :: rest)
    = [SetIsProcessing true;
       Alert (if (size bad >? maxSize)%Z
              then name bad ++ " exceeds maximum size of " ++ megabytes maxSize ++ "MB"
              else name bad ++ " has unsupported file type");
       SetIsProcessing false].
Proof.
  intros good rest bad Hcount Hgood Hbad.
  unfold FileUpload.processFiles. rewrite Hcount.
  rewrite (promiseAll_first_failure good rest bad _ Hgood
             (processOne_fails readAsDataURL megabytes hashRejection maxSize acceptedTypes
                bad Hbad)).
  reflexivity.
Qed.

Lemma calculateFileHash_length : forall f : File,
  String.length (calculateFileHash f) = 64%nat.
Proof.
  intros f.
  change (calculateFileHash f) with (Engine.hex (SHA256.digest (content f))).
  rewrite hex_pairs, pairs_length, digest_length. reflexivity.
Qed.

Lemma withoutIndex_existsb : forall (A : Type) (p : A -> bool) (l : list A) (index i : Z),
  existsb p l = false -> existsb p (withoutIndex index i l) = false.
Proof.
  induction l as [|x l IH]; intros index i H; [reflexivity|].
  cbn [existsb] in H. apply orb_false_iff in H as [Hx Hl].
  cbn [withoutIndex]. destruct (negb (i =? index)%Z); cbn [existsb].
  - rewrite Hx. apply IH, Hl.
  - apply IH, Hl.
Qed.

(** X4. Every file [processFiles] adds carries a hash of 64 characters;
    so when every file of the list has a hash, every list [processFiles]
    or [removeFile] hands to [onFilesChange] has too, and the submit
    button of the form is disabled only while submitting. *)
Theorem files_stay_hashed : forall (batch : list File) (index : Z),
  CreateRecordForm.submitDisabled false files = false ->
  Forall (fun l => CreateRecordForm.submitDisabled false l = false)
    (onFilesChangeCalls (addFiles batch))
  /\ Forall (fun l => CreateRecordForm.submitDisabled false l = false)
       (onFilesChangeCalls (removeFile files index))
  /\ Forall (fun f => String.length (hash f) = 64%nat) (map added batch).
Proof.
  intros batch index Hfiles. unfold CreateRecordForm.submitDisabled in *. cbn [orb] in *.
  assert (Hnew : existsb (fun f => hash f =? "") (map added batch) = false).
  { induction batch as [|f batch IH]; [reflexivity|].
    cbn [map existsb]. rewrite IH, orb_false_r.
    apply String.eqb_neq. intros Hempty.
    pose proof (calculateFileHash_length f) as Hlen.
    cbn [hash processed] in Hempty. rewrite Hempty in Hlen. discriminate Hlen. }
  split; [|split].
  - unfold FileUpload.processFiles.
    destruct (Z.of_nat (List.length files) + Z.of_nat (List.length batch) >? maxFiles)%Z;
      [constructor|].
    destruct (forallb okFile batch && forallb isHashed batch) eqn:Hall.
    + apply andb_true_iff in Hall as [Hpass Hhash].
      rewrite (promiseAll_passes readAsDataURL megabytes hashRejection maxSize acceptedTypes
                 batch Hpass Hhash).
      cbn [onFilesChangeCalls flat_map app]. constructor; [|constructor].
      rewrite existsb_app, Hfiles, Hnew. reflexivity.
    + destruct (promiseAll_fails readAsDataURL megabytes hashRejection maxSize acceptedTypes
                  batch Hall) as [e He].
      rewrite He. constructor.
  - unfold removeFile. cbn [onFilesChangeCalls flat_map app]. constructor; [|constructor].
    apply withoutIndex_existsb, Hfiles.
  - apply Forall_forall. intros g Hg. apply in_map_iff in Hg as [f [<- _]].
    apply calculateFileHash_length.
Qed.

End FileList.

(** The theorems on the file list apply: a text file of three bytes after
    which comes one of five, against a limit of four bytes, on a platform
    that cannot hash any file; and a text file added to an empty list. *)
Lemma processFiles_alerts_first_failure_witness :
  FileUpload.processFiles (fun _ => None) (fun _ => "0.000003814697265625") noSubtleCrypto
    [] 10 4 None
    ([Web.mkFile "a.txt" "text/plain" ["a"; "b"; "c"]%byte]
     ++ Web.mkFile "b.txt" "text/plain" ["h"; "e"; "l"; "l"; "o"]%byte
        :: [Web.mkFile "c.txt" "text/plain" []])%list
  = [FileUpload.SetIsProcessing true;
     FileUpload.Alert "b.txt exceeds maximum size of 0.000003814697265625MB";
     FileUpload.SetIsProcessing false].
Proof.
  apply (processFiles_alerts_first_failure
           (fun _ => None) (fun _ => "0.000003814697265625") noSubtleCrypto [] 10 4 None
           [Web.mkFile "a.txt" "text/plain" ["a"; "b"; "c"]%byte]
           [Web.mkFile "c.txt" "text/plain" []]
           (Web.mkFile "b.txt" "text/plain" ["h"; "e"; "l"; "l"; "o"]%byte));
    reflexivity.
Defined.

Lemma files_stay_hashed_witness :
  Forall (fun l => CreateRecordForm.submitDisabled false l = false)
    (FileUpload.onFilesChangeCalls
       (FileUpload.processFiles (fun _ => None) (fun _ => "100") (fun _ => None)
          [] 10 104857600 None [Web.mkFile "a.txt" "text/plain" ["a"; "b"; "c"]%byte]))
  /\ Forall (fun l => CreateRecordForm.submitDisabled false l = false)
       (FileUpload.onFilesChangeCalls (FileUpload.removeFile [] 0))
  /\ Forall (fun f => String.length (FileUpload.hash f) = 64%nat)
       (map (processed (fun _ => None)) [Web.mkFile "a.txt" "text/plain" ["a"; "b"; "c"]%byte]).
Proof.
  apply (files_stay_hashed (fun _ => None) (fun _ => "100") (fun _ => None)
           [] 10 104857600 None
           [Web.mkFile "a.txt" "text/plain" ["a"; "b"; "c"]%byte] 0).
  reflexivity.
Defined.

(** ** CreateRecordForm: what a submission carries *)

Section Submission.
Import JS Web CreateRecordForm.

Lemma trimStart_head : forall s c r, trimStart s = String c r -> isWhiteSpace c = false.
Proof.
  induction s as [|d s IH]; intros c r H; [discriminate H|].
  cbn [trimStart] in H. destruct (isWhiteSpace d) eqn:Hd.
  - apply (IH c r H).
  - injection H as <- _. exact Hd.
Qed.

Lemma trimEnd_head : forall c r,
  isWhiteSpace c = false -> exists r', trimEnd (String c r) = String c r'.
Proof.
  intros c r Hc. cbn [trimEnd]. rewrite Hc.
  destruct (trimEnd r); eexists; reflexivity.
Qed.

Lemma trimEnd_idempotent : forall s, trimEnd (trimEnd s) = trimEnd s.
Proof.
  induction s as [|c s IH]; [reflexivity|].
  cbn [trimEnd]. destruct (trimEnd s) as [|d t] eqn:Hs.
  - destruct (isWhiteSpace c) eqn:Hc; [reflexivity|].
    unfold str1. cbn [trimEnd]. rewrite Hc. reflexivity.
  - change (trimEnd (String c (String d t)))
      with (match trimEnd (String d t) with
            | EmptyString => if isWhiteSpace c then EmptyString else str1 c
            | String _ _ as r' => String c r'
            end).
    rewrite IH. reflexivity.
Qed.

(** [trim] leaves a trimmed string as it is. *)
Lemma trim_idempotent : forall s, trim (trim s) = trim s.
Proof.
  intros s. unfold trim.
  destruct (trimStart s) as [|c r] eqn:Hs; [reflexivity|].
  pose proof (trimStart_head s c r Hs) as Hc.
  destruct (trimEnd_head c r Hc) as [r' Hr']. rewrite Hr'.
  cbn [trimStart]. rewrite Hc. rewrite <- Hr'. apply trimEnd_idempotent.
Qed.

Lemma trimStart_length : forall s, (String.length (trimStart s) <= String.length s)%nat.
Proof.
  induction s as [|c s IH]; [apply Nat.le_refl|].
  cbn [trimStart]. destruct (isWhiteSpace c); cbn [String.length]; lia.
Qed.

Lemma trimEnd_length : forall s, (String.length (trimEnd s) <= String.length s)%nat.
Proof.
  induction s as [|c s IH]; [apply Nat.le_refl|].
  cbn [trimEnd]. destruct (trimEnd s) as [|d t].
  - destruct (isWhiteSpace c); cbn [String.length str1]; lia.
  - cbn [String.length] in *. lia.
Qed.

Lemma trim_length : forall s, (JS.length (trim s) <= JS.length s)%Z.
Proof.
  intros s. unfold JS.length, trim.
  pose proof (trimEnd_length (trimStart s)). pose proof (trimStart_length s). lia.
Qed.

Lemma trimStart_chars : forall s c,
  In c (list_ascii_of_string (trimStart s)) -> In c (list_ascii_of_string s).
Proof.
  induction s as [|d s IH]; intros c H; [exact H|].
  cbn [trimStart] in H. destruct (isWhiteSpace d).
  - right. apply IH, H.
  - exact H.
Qed.

Lemma trimEnd_chars : forall s c,
  In c (list_ascii_of_string (trimEnd s)) -> In c (list_ascii_of_string s).
Proof.
  induction s as [|d s IH]; intros c H; [exact H|].
  cbn [trimEnd] in H. destruct (trimEnd s) as [|e t].
  - destruct (isWhiteSpace d); [destruct H|].
    destruct H as [H|[]]. left. exact H.
  - destruct H as [H|H]; [left; exact H|]. right. apply IH, H.
Qed.

Lemma trim_chars : forall s c,
  In c (list_ascii_of_string (trim s)) -> In c (list_ascii_of_string s).
Proof. intros s c H. apply trimStart_chars, trimEnd_chars, H. Qed.

(** No piece of [s.split(sep)] contains the separator. *)
Lemma split_pieces : forall sep s p,
  In p (split sep s) -> ~ In sep (list_ascii_of_string p).
Proof.
  induction s as [|c s IH]; intros p Hp.
  - destruct Hp as [<-|[]]. intros [].
  - cbn [split] in Hp. destruct (Ascii.eqb c sep) eqn:Hc.
    + destruct Hp as [<-|Hp]; [intros []|]. apply IH, Hp.
    + destruct (split sep s) as [|h t] eqn:Hs.
      * destruct Hp as [<-|[]]. intros [H|[]]. subst c. rewrite Ascii.eqb_refl in Hc.
        discriminate Hc.
      * destruct Hp as [<-|Hp].
        -- intros [H|H].
           ++ subst c. rewrite Ascii.eqb_refl in Hc. discriminate Hc.
           ++ apply (IH h (or_introl eq_refl)), H.
        -- apply IH. right. exact Hp.
Qed.

Variable Date_parse : string -> option Z.
Variable Date_toISOString : Z -> string.

(** What [handleSubmit] passes to [onSubmit], when it does. *)
Lemma handleSubmit_data :
  forall (formData : FormData) (files : list FileUpload.FileWithHash)
         (data : CreateRecordFormData),
    In (OnSubmit data) (handleSubmit Date_parse Date_toISOString formData files) ->
    acceptedByValidate formData = true
    /\ exists t,
         Date_parse (eventTimestamp formData) = Some t
         /\ handleSubmit Date_parse Date_toISOString formData files
            = [PreventDefault; SetErrors (newErrors formData); OnSubmit data]
         /\ submittedTitle data = trim (title formData)
         /\ submittedContent data = trim (content formData)
         /\ submittedEventTimestamp data = Date_toISOString t
         /\ submittedDescription data
            = (if trim (description formData) =? "" then None
               else Some (trim (description formData)))
         /\ submittedTags data
            = (match (if tags formData =? "" then []
                      else filter (fun t => negb (t =? ""))
                             (map trim (split "," (tags formData)))) with
               | [] => None
               | l => Some l
               end)
         /\ attachmentMetadata data
            = (match files with
               | [] => None
               | _ => Some (map (fun f => mkAttachment (name (FileUpload.file f))
                                            (type (FileUpload.file f))
                                            (size (FileUpload.file f))
                                            (FileUpload.hash f)) files)
               end).
Proof.
  intros formData files data. unfold handleSubmit. rewrite validate_accepts.
  destruct (acceptedByValidate formData); cbn [negb].
  - unfold newDate_toISOString, validate. cbn [fst].
    destruct (Date_parse (eventTimestamp formData)) as [t|].
    + intros [H|[H|[H|[]]]]; try discriminate H.
      injection H as <-. split; [reflexivity|]. exists t.
      cbn [submittedTitle submittedContent submittedEventTimestamp submittedDescription
           submittedTags attachmentMetadata].
      do 6 (split; [reflexivity|]).
      split; [|destruct files; reflexivity].
      destruct (if tags formData =? "" then [] else _); reflexivity.
    + intros [H|[H|[H|[]]]]; discriminate H.
  - intros [H|[H|[]]]; discriminate H.
Qed.

(** X5. Whatever [handleSubmit] passes to [onSubmit] has a title and a
    content that are non-empty, carry no white space at either end and
    stay within 500 and 10,000,000 characters; a description, when there
    is one, is non-empty and trimmed; the event timestamp is the ISO text
    of the date the field parses to; and [onSubmit] is called once. *)
Theorem submission_is_trimmed :
  forall (formData : FormData) (files : list FileUpload.FileWithHash)
         (data : CreateRecordFormData),
    In (OnSubmit data) (handleSubmit Date_parse Date_toISOString formData files) ->
    (submittedTitle data <> "" /\ trim (submittedTitle data) = submittedTitle data
     /\ (JS.length (submittedTitle data) <= 500)%Z)
    /\ (submittedContent data <> "" /\ trim (submittedContent data) = submittedContent data
        /\ (JS.length (submittedContent data) <= 10000000)%Z)
    /\ (forall d, submittedDescription data = Some d -> d <> "" /\ trim d = d)
    /\ (exists t, Date_parse (eventTimestamp formData) = Some t
                  /\ submittedEventTimestamp data = Date_toISOString t)
    /\ handleSubmit Date_parse Date_toISOString formData files
       = [PreventDefault; SetErrors (newErrors formData); OnSubmit data].
Proof.
  intros formData files data Hin.
  destruct (handleSubmit_data formData files data Hin)
    as [Hacc [t [Ht [Hall [Htitle [Hcontent [Hts [Hdesc _]]]]]]]].
  unfold acceptedByValidate in Hacc.
  rewrite !andb_true_iff, !negb_true_iff, !String.eqb_neq, !Z.leb_le in Hacc.
  destruct Hacc as [[[[Ht1 Ht2] Hc1] Hc2] _].
  rewrite Htitle, Hcontent.
  split; [|split; [|split; [|split]]].
  - split; [exact Ht1|]. split; [apply trim_idempotent|].
    pose proof (trim_length (title formData)). lia.
  - split; [exact Hc1|]. split; [apply trim_idempotent|].
    pose proof (trim_length (content formData)). lia.
  - intros d Hd. rewrite Hdesc in Hd.
    destruct (trim (description formData) =? "") eqn:He; [discriminate Hd|].
    injection Hd as <-. split; [apply String.eqb_neq, He | apply trim_idempotent].
  - exists t. split; assumption.
  - exact Hall.
Qed.

(** X6. The tags [handleSubmit] passes on are the comma-separated pieces
    of the tags field, trimmed, without the blank ones: there is at
    least one, and each is non-empty, has no white space at either end
    and contains no comma. *)
Theorem submitted_tags_are_clean :
  forall (formData : FormData) (files : list FileUpload.FileWithHash)
         (data : CreateRecordFormData) (l : list string),
    In (OnSubmit data) (handleSubmit Date_parse Date_toISOString formData files) ->
    submittedTags data = Some l ->
    l <> []
    /\ Forall (fun t => t <> "" /\ trim t = t /\ ~ In ","%char (list_ascii_of_string t)) l.
Proof.
  intros formData files data l Hin Htags.
  destruct (handleSubmit_data formData files data Hin)
    as [_ [t [_ [_ [_ [_ [_ [_ [Hl _]]]]]]]]].
  rewrite Hl in Htags. clear Hl.
  destruct (tags formData =? ""); [discriminate Htags|].
  assert (Hall : Forall (fun t => t <> "" /\ trim t = t
                                  /\ ~ In ","%char (list_ascii_of_string t))
                   (filter (fun t => negb (t =? ""))
                      (map trim (split "," (tags formData))))).
  { apply Forall_forall. intros x Hx. apply filter_In in Hx as [Hx Hne].
    apply in_map_iff in Hx as [p [<- Hp]].
    split; [apply String.eqb_neq, negb_true_iff, Hne|].
    split; [apply trim_idempotent|].
    intros Hcomma. apply (split_pieces _ _ _ Hp), trim_chars, Hcomma. }
  destruct (filter _ _) as [|x rest]; [discriminate Htags|].
  injection Htags as <-. split; [discriminate | exact Hall].
Qed.

End Submission.

(** The theorems on a submission apply: a form filled with blanks around
    its texts and three tags, one of them blank. *)
Lemma submission_is_trimmed_witness :
  ("Meeting notes" <> "" /\ JS.trim "Meeting notes" = "Meeting notes"
   /\ (JS.length "Meeting notes" <= 500)%Z)
  /\ ("The board met." <> "" /\ JS.trim "The board met." = "The board met."
      /\ (JS.length "The board met." <= 10000000)%Z)
  /\ (forall d, Some "minutes" = Some d -> d <> "" /\ JS.trim d = d)
  /\ (exists t, Some 1705329000000%Z = Some t /\ "2024-01-15T14:30:00.000Z" = "2024-01-15T14:30:00.000Z")
  /\ CreateRecordForm.handleSubmit
       (fun _ => Some 1705329000000%Z) (fun _ => "2024-01-15T14:30:00.000Z")
       (CreateRecordForm.mkFormData "  Meeting notes " "The board met.  " "2024-01-15T14:30"
          " minutes" "board, ,2024 ") []
     = [CreateRecordForm.PreventDefault;
        CreateRecordForm.SetErrors (CreateRecordForm.mkErrors None None None);
        CreateRecordForm.OnSubmit
          (CreateRecordForm.mkSubmission "Meeting notes" "The board met."
             "2024-01-15T14:30:00.000Z" (Some "minutes") (Some ["board"; "2024"]) None)].
Proof.
  apply (submission_is_trimmed
           (fun _ => Some 1705329000000%Z) (fun _ => "2024-01-15T14:30:00.000Z")
           (CreateRecordForm.mkFormData "  Meeting notes " "The board met.  " "2024-01-15T14:30"
              " minutes" "board, ,2024 ") []
           (CreateRecordForm.mkSubmission "Meeting notes" "The board met."
              "2024-01-15T14:30:00.000Z" (Some "minutes") (Some ["board"; "2024"]) None)).
  right. right. left. reflexivity.
Defined.

Lemma submitted_tags_are_clean_witness :
  ["board"; "2024"] <> []
  /\ Forall (fun t => t <> "" /\ JS.trim t = t /\ ~ In ","%char (list_ascii_of_string t))
       ["board"; "2024"].
Proof.
  apply (submitted_tags_are_clean
           (fun _ => Some 1705329000000%Z) (fun _ => "2024-01-15T14:30:00.000Z")
           (CreateRecordForm.mkFormData "  Meeting notes " "The board met.  " "2024-01-15T14:30"
              " minutes" "board, ,2024 ") []
           (CreateRecordForm.mkSubmission "Meeting notes" "The board met."
              "2024-01-15T14:30:00.000Z" (Some "minutes") (Some ["board"; "2024"]) None)
           ["board"; "2024"]).
  - right. right. left. reflexivity.
  - reflexivity.
Defined.

(** ** api.ts and api-edge.ts: requests, encoding, unchecked data *)

Section Requests.
Import JS Web.
Local Open Scope async_scope.

(** Two computations over two worlds settle alike and leave their
    worlds alone: the building blocks. *)
Lemma alike_bind : forall (W W' A B : Type) (m : Async W A) (m' : Async W' A)
                          (k : A -> Async W B) (k' : A -> Async W' B),
  (exists o, (forall w, m w = (o, w)) /\ (forall w', m' w' = (o, w'))) ->
  (forall a, exists o, (forall w, k a w = (o, w)) /\ (forall w', k' a w' = (o, w'))) ->
  exists o, (forall w, bind m k w = (o, w)) /\ (forall w', bind m' k' w' = (o, w')).
Proof.
  intros W W' A B m m' k k' [[a|e] [Hm Hm']] Hk.
  - destruct (Hk a) as [o [Ho Ho']]. exists o.
    split; intros x; unfold bind; [rewrite Hm | rewrite Hm']; auto.
  - exists (Throw e). split; intros x; unfold bind; [rewrite Hm | rewrite Hm']; reflexivity.
Qed.

Lemma alike_try_catch : forall (W W' A : Type) (m : Async W A) (m' : Async W' A)
                               (h : thrown -> Async W A) (h' : thrown -> Async W' A),
  (exists o, (forall w, m w = (o, w)) /\ (forall w', m' w' = (o, w'))) ->
  (forall e, exists o, (forall w, h e w = (o, w)) /\ (forall w', h' e w' = (o, w'))) ->
  exists o, (forall w, try_catch m h w = (o, w)) /\ (forall w', try_catch m' h' w' = (o, w')).
Proof.
  intros W W' A m m' h h' [[a|e] [Hm Hm']] Hh.
  - exists (Return a). split; intros x; unfold try_catch; [rewrite Hm | rewrite Hm']; reflexivity.
  - destruct (Hh e) as [o [Ho Ho']]. exists o.
    split; intros x; unfold try_catch; [rewrite Hm | rewrite Hm']; auto.
Qed.

(** Handling a response neither reads nor changes the world, and does
    not depend on the world it runs in. *)
Lemma after_alike : forall (E E' : Env) (c : call) (response : Response),
  exists o, (forall w, after E c response w = (o, w))
            /\ (forall w', after E' c response w' = (o, w')).
Proof.
  intros E E' c response.
  destruct c; cbn [after];
    unfold Api.dataOf, Api.throwUnlessOk, Api.resultWithData;
    repeat first
      [ solve [eexists; split; intros; reflexivity]
      | apply alike_bind; [|intros ?]
      | apply alike_try_catch; [|intros ?]
      | match goal with
        | |- context [if ?b then _ else _] => destruct b
        end ].
Qed.

Lemma afterEdge_alike : forall (E E' : Env) (c : edgeCall) (response : Response),
  exists o, (forall w, afterEdge E c response w = (o, w))
            /\ (forall w', afterEdge E' c response w' = (o, w')).
Proof.
  intros E E' c response.
  destruct c; cbn [afterEdge];
    unfold ApiEdge.dataOf, ApiEdge.wholeOf, ApiEdge.throwUnlessOk;
    repeat first
      [ solve [eexists; split; intros; reflexivity]
      | apply alike_bind; [|intros ?]
      | apply alike_try_catch; [|intros ?]
      | match goal with
        | |- context [if ?b then _ else _] => destruct b
        end ].
Qed.

Lemma runEdge_fetch_after : forall (E : Env) (c : edgeCall),
  exists path init,
    forall E' : Env,
      VITE_API_URL E' = VITE_API_URL E ->
      VITE_SUPABASE_ANON_KEY E' = VITE_SUPABASE_ANON_KEY E ->
      runEdge E' c = bind (fetch E' (ApiEdge.API_BASE_URL E ++ path) init) (afterEdge E' c).
Proof.
  intros E c.
  destruct c; do 2 eexists; intros E' Hurl Hkey; cbn [runEdge];
    unfold ApiEdge.createTruthRecord, ApiEdge.getTruthRecord, ApiEdge.verifyRecord,
      ApiEdge.getPublicKey, ApiEdge.getVerificationBundle, ApiEdge.uploadFile,
      ApiEdge.uploadMultipleFiles, ApiEdge.createMemoryRecord, ApiEdge.getMemoryRecord,
      ApiEdge.listMemoryRecords, ApiEdge.updateMemoryRecord, ApiEdge.createMilestone,
      ApiEdge.getMilestone, ApiEdge.listMilestones, ApiEdge.updateMilestone,
      ApiEdge.getHeaders, ApiEdge.uploadHeaders, ApiEdge.API_BASE_URL,
      ApiEdge.SUPABASE_ANON_KEY;
    rewrite ?Hurl, ?Hkey; reflexivity.
Qed.

Lemma run_fetch_after_env : forall (E : Env) (c : call),
  exists url init,
    forall E' : Env,
      VITE_API_URL E' = VITE_API_URL E ->
      VITE_SUPABASE_ANON_KEY E' = VITE_SUPABASE_ANON_KEY E ->
      run E' c = bind (fetch E' url init) (after E' c).
Proof.
  intros E c.
  destruct c; do 2 eexists; intros E' Hurl Hkey; cbn [run];
    unfold Api.createTruthRecord, Api.getTruthRecord, Api.verifyRecord, Api.getPublicKey,
      Api.getVerificationBundle, Api.createMemoryRecord, Api.getMemoryRecord,
      Api.listMemoryRecords, Api.updateMemoryRecord, Api.uploadFile,
      Api.uploadMultipleFiles, Api.getHeaders, Api.authHeaders, Api.API_BASE_URL,
      Api.SUPABASE_ANON_KEY;
    rewrite ?Hurl, ?Hkey; reflexivity.
Qed.

(** X7. Every exported function of api.ts and of api-edge.ts makes
    exactly one request, whatever comes back: with the requests counted,
    a call settles as it does without the count, leaves the world as its
    one [fetch] left it, and raises the count by one. *)
Theorem one_request_per_call : forall (E : Env) (n : nat) (w : World E),
  (forall c : call,
     run (counting E) c (n, w) = (fst (run E c w), (S n, snd (run E c w))))
  /\ (forall c : edgeCall,
        runEdge (counting E) c (n, w) = (fst (runEdge E c w), (S n, snd (runEdge E c w)))).
Proof.
  intros E n w. split; intros c.
  - destruct (run_fetch_after_env E c) as [url [init Hrun]].
    rewrite (Hrun (counting E) eq_refl eq_refl), (Hrun E eq_refl eq_refl).
    unfold bind. cbn [fetch counting snd fst].
    destruct (fetch E url init w) as [[response|e] w1]; [|reflexivity].
    destruct (after_alike (counting E) E c response) as [o [Ho Ho']].
    rewrite Ho, Ho'. reflexivity.
  - destruct (runEdge_fetch_after E c) as [path [init Hrun]].
    rewrite (Hrun (counting E) eq_refl eq_refl), (Hrun E eq_refl eq_refl).
    unfold bind. cbn [fetch counting snd fst].
    destruct (fetch E (ApiEdge.API_BASE_URL E ++ path) init w) as [[response|e] w1];
      [|reflexivity].
    destruct (afterEdge_alike (counting E) E c response) as [o [Ho Ho']].
    rewrite Ho, Ho'. reflexivity.
Qed.

Lemma urlencode_byte_safe : forall b : byte,
  Hex.all isFormSafe (urlencode_byte b) = true.
Proof. intros b; destruct b; vm_compute; reflexivity. Qed.

Lemma urlencode_safe : forall s : string, Hex.all isFormSafe (urlencode s) = true.
Proof.
  intros s. unfold urlencode. generalize (utf8 s). intros bs.
  induction bs as [|b bs IH]; [reflexivity|].
  cbn [map]. now rewrite concat_cons, all_app, urlencode_byte_safe, IH.
Qed.

(** X8. [listMemoryRecords] of api.ts sends the owner id, the page and
    the limit form-encoded: its one request goes to the list-memories
    path with the query ownerId, page, limit in this order, each value
    the form encoding of the argument (1 and 20 for a page and a limit
    left out), and a form encoding is a text of letters, digits and the
    marks * - . _ + % only, so no value can bring an ampersand, an equals
    sign, a hash, a question mark, a slash or a blank of its own into
    the URL. *)
Theorem listMemoryRecords_query_is_encoded :
  forall (E : Env) (ownerId : string) (page limit : option number),
    Api.listMemoryRecords E ownerId page limit
    = bind
        (fetch E
           (Api.API_BASE_URL E ++ "/list-memories?"
            ++ "ownerId=" ++ urlencode ownerId
            ++ "&page=" ++ urlencode (match page with Some p => p | None => "1" end)
            ++ "&limit=" ++ urlencode (match limit with Some l => l | None => "20" end))
           (mkInit None (Api.getHeaders E) None))
        (fun response => Api.throwUnlessOk E response;; Api.resultWithData E response)
    /\ Hex.all isFormSafe (urlencode ownerId) = true
    /\ Hex.all isFormSafe (urlencode (match page with Some p => p | None => "1" end)) = true
    /\ Hex.all isFormSafe (urlencode (match limit with Some l => l | None => "20" end)) = true
    /\ forallb (fun x => negb (isFormSafe x)) ["&"; "="; "#"; "?"; " "; "/"]%char = true.
Proof.
  intros E ownerId page limit.
  split; [|repeat (split; [apply urlencode_safe|]); reflexivity].
  unfold Api.listMemoryRecords, URLSearchParams_toString.
  cbn [map fst snd String.concat].
  change (urlencode "ownerId") with "ownerId".
  change (urlencode "page") with "page".
  change (urlencode "limit") with "limit".
  cbn [append]. rewrite ?append_assoc. reflexivity.
Qed.

Lemma edge_dataOf_ok : forall (E : Env) (response : Response) (w : World E) (body : value),
  ok response = true -> json response = Return body -> body <> Null -> body <> Undefined ->
  ApiEdge.dataOf E response w = (Return (prop body "data"), w).
Proof.
  intros E response w body Hok Hbody Hn Hu.
  unfold ApiEdge.dataOf, ApiEdge.throwUnlessOk, bind, settle, ret.
  rewrite Hok, Hbody. cbn [negb]. rewrite (get_present body "data" Hn Hu). reflexivity.
Qed.

Lemma edge_wholeOf_ok : forall (E : Env) (response : Response) (w : World E),
  ok response = true -> ApiEdge.wholeOf E response w = (json response, w).
Proof.
  intros E response w Hok.
  unfold ApiEdge.wholeOf, ApiEdge.throwUnlessOk, bind, settle, ret.
  rewrite Hok. reflexivity.
Qed.

(** X9. The functions of api-edge.ts do not check what an ok response
    carries.  When [fetch] answers with an ok response whose body is a
    JSON value other than [null], every function but the two list
    functions resolves with the body's data property as it is,
    [undefined] when the body has none; the two list functions resolve
    with the body itself, whatever it is. *)
Theorem edge_resolves_unchecked :
  forall (E : Env) (c : edgeCall) (w : World E),
  exists path init,
    forall (response : Response) (w' : World E) (body : value),
      fetch E (ApiEdge.API_BASE_URL E ++ path) init w = (Return response, w') ->
      ok response = true ->
      json response = Return body ->
      (isEdgeList c = true -> runEdge E c w = (Return body, w'))
      /\ (isEdgeList c = false -> body <> Null -> body <> Undefined ->
          runEdge E c w = (Return (prop body "data"), w')).
Proof.
  intros E c w. destruct (runEdge_fetch_after E c) as [path [init Hrun]].
  exists path, init. intros response w' body Hfetch Hok Hbody.
  rewrite (Hrun E eq_refl eq_refl). unfold bind. rewrite Hfetch.
  split.
  - intros Hlist. destruct c; try discriminate Hlist; cbn [afterEdge];
      rewrite edge_wholeOf_ok, Hbody by exact Hok; reflexivity.
  - intros Hlist Hn Hu.
    destruct c; try discriminate Hlist; cbn [afterEdge];
      try apply (edge_dataOf_ok E response w' body Hok Hbody Hn Hu).
    unfold bind, settle. rewrite Hok, Hbody. cbn [negb].
    rewrite (get_present body "data" Hn Hu). reflexivity.
Qed.

Lemma edge_throwUnlessOk_fails :
  forall (E : Env) (response : Response) (w : World E),
    ok response = false ->
    (forall e, json response = Throw e ->
       ApiEdge.throwUnlessOk E response w = (Throw (ErrorInstance "Error" "Unknown error"), w))
    /\ (forall body, json response = Return body -> body = Null \/ body = Undefined ->
          ApiEdge.throwUnlessOk E response w
          = (Throw (ErrorInstance "TypeError"
                      ("Cannot read properties of " ++ ToString body ++ " (reading 'error')")),
             w))
    /\ (forall body, json response = Return body -> body <> Null -> body <> Undefined ->
          ApiEdge.throwUnlessOk E response w
          = (Throw (ErrorInstance "Error"
                      (if truthy (prop body "error") then ToString (prop body "error")
                       else "HTTP " ++ Number_toString (status response))), w)).
Proof.
  intros E response w Hok. unfold ApiEdge.throwUnlessOk. rewrite Hok. cbn [negb].
  split; [|split].
  - intros e He. unfold bind, try_catch, settle, ret, throw. rewrite He. reflexivity.
  - intros body Hbody Hnullish. unfold bind, try_catch, settle, ret, throw.
    rewrite Hbody, (get_nullish body "error" Hnullish). reflexivity.
  - intros body Hbody Hn Hu. unfold bind, try_catch, settle, ret, throw.
    rewrite Hbody, (get_present body "error" Hn Hu), Error_or. reflexivity.
Qed.


Lemma key_headers : forall key : string,
  let auth := if key =? "" then []
              else [("apikey", key); ("Authorization", "Bearer " ++ key)] in
  (forall init, headers init = auth ->
     header "apikey" init = (if key =? "" then None else Some key)
     /\ header "Authorization" init = (if key =? "" then None else Some ("Bearer " ++ key))
     /\ header "Content-Type" init = None)
  /\ (forall init, headers init = ("Content-Type", "application/json") :: auth ->
        header "apikey" init = (if key =? "" then None else Some key)
        /\ header "Authorization" init = (if key =? "" then None else Some ("Bearer " ++ key))
        /\ header "Content-Type" init = Some "application/json").
Proof.
  intros key auth. subst auth.
  split; intros init Hinit; unfold header; rewrite Hinit;
    destruct (key =? ""); repeat split.
Qed.

(** X13. What every request of api.ts and of api-edge.ts carries.  With
    a Supabase anon key configured the request has the key as its apikey
    header and Bearer with the key as its Authorization header; without
    one it has neither.  The two upload functions send form data and set
    no Content-Type; every other function sets Content-Type to
    application/json and sends no form data. *)
Theorem requests_carry_the_key : forall E : Env,
  (forall c : call,
     exists url init,
       run E c = bind (fetch E url init) (after E c)
       /\ header "apikey" init
          = (if Api.SUPABASE_ANON_KEY E =? "" then None else Some (Api.SUPABASE_ANON_KEY E))
       /\ header "Authorization" init
          = (if Api.SUPABASE_ANON_KEY E =? "" then None
             else Some ("Bearer " ++ Api.SUPABASE_ANON_KEY E))
       /\ header "Content-Type" init
          = (if isUpload c then None else Some "application/json")
       /\ isFormData init = isUpload c)
  /\ (forall c : edgeCall,
        exists url init,
          runEdge E c = bind (fetch E url init) (afterEdge E c)
          /\ header "apikey" init
             = (if ApiEdge.SUPABASE_ANON_KEY E =? "" then None
                else Some (ApiEdge.SUPABASE_ANON_KEY E))
          /\ header "Authorization" init
             = (if ApiEdge.SUPABASE_ANON_KEY E =? "" then None
                else Some ("Bearer " ++ ApiEdge.SUPABASE_ANON_KEY E))
          /\ header "Content-Type" init
             = (if isEdgeUpload c then None else Some "application/json")
          /\ isFormData init = isEdgeUpload c).
Proof.
  intros E. split; intros c.
  - destruct (key_headers (Api.SUPABASE_ANON_KEY E)) as [Hup Hjson].
    destruct c; do 2 eexists; (split; [reflexivity|]);
      cbn [isUpload];
      match goal with
      | |- header _ ?i = _ /\ _ =>
          first [ destruct (Hjson i eq_refl) as [H1 [H2 H3]]
                | destruct (Hup i eq_refl) as [H1 [H2 H3]] ]
      end;
      (split; [exact H1|]); (split; [exact H2|]); (split; [exact H3|]);
      unfold isFormData, Api.jsonBody; cbn [body]; try reflexivity;
      match goal with
      | |- context [JSON.stringify ?d] => destruct (JSON.stringify d); reflexivity
      end.
  - destruct (key_headers (ApiEdge.SUPABASE_ANON_KEY E)) as [Hup Hjson].
    destruct c; do 2 eexists; (split; [reflexivity|]);
      cbn [isEdgeUpload];
      match goal with
      | |- header _ ?i = _ /\ _ =>
          first [ destruct (Hjson i eq_refl) as [H1 [H2 H3]]
                | destruct (Hup i eq_refl) as [H1 [H2 H3]] ]
      end;
      (split; [exact H1|]); (split; [exact H2|]); (split; [exact H3|]);
      unfold isFormData, ApiEdge.jsonBody; cbn [body]; try reflexivity;
      match goal with
      | |- context [JSON.stringify ?d] => destruct (JSON.stringify d); reflexivity
      end.
Qed.

End Requests.


Example edge_null_body_example :
  runEdge (constantEnv (JS.Return (Web.mkResponse 500 (JS.Return JS.Null))))
    (EdgeVerifyRecord "r1") tt
  = (JS.Throw
       (JS.ErrorInstance "TypeError" "Cannot read properties of null (reading 'error')"), tt).
Proof. reflexivity. Qed.

Example edge_resolves_unchecked_examples :
  runEdge (constantEnv (JS.Return (Web.mkResponse 200 (JS.Return (JS.Obj [("meta", JS.Null)])))))
    EdgeGetPublicKey tt
  = (JS.Return JS.Undefined, tt)
  /\ runEdge (constantEnv (JS.Return (Web.mkResponse 200 (JS.Return (JS.Obj [("meta", JS.Null)])))))
       (EdgeListMilestones "u1" None None) tt
     = (JS.Return (JS.Obj [("meta", JS.Null)]), tt)
  /\ run (constantEnv (JS.Return (Web.mkResponse 200 (JS.Return (JS.Obj [("meta", JS.Null)])))))
       GetPublicKey tt
     = (JS.Throw (JS.ErrorInstance "Error" "Invalid response: missing data"), tt).
Proof. repeat split. Qed.

(** ** The pages: what is shown after loading and after submitting *)

Section Pages.
Import JS Web.
Local Open Scope async_scope.

(** The platform's [Date], and the render of RecordVerification. *)
Variable Date_parse : string -> option Z.
Variable Date_ofValue : value -> option Z.
Variable Date_toISOString : Z -> string.
Variable RecordVerification : value -> Outcome unit.

Local Abbreviation isoOf :=
  (VerifyRecord.newDate_toISOString Date_parse Date_ofValue Date_toISOString).
Local Abbreviation viewOf :=
  (VerifyRecord.view Date_parse Date_ofValue Date_toISOString).



End Pages.

(** The loading effect against a server that answers every request with
    the sample record, against one that answers with a record of an id
    only, and against one that answers 500; and the creation page on a
    record for which RecordVerification throws. *)
Example pages_examples :
  VerifyRecord.view sampleDate_parse (fun _ => None) sampleDate_toISOString
    (fst (VerifyRecord.loadPage (constantEnv (JS.Return (Engine.okResponse sampleRecord)))
            false (Some "r1") VerifyRecord.initialLoaded tt))
  = VerifyRecord.RecordView "2024-01-15T14:30:00.000Z" "2024-01-15T15:00:00.000Z"
  /\ VerifyRecord.view sampleDate_parse (fun _ => None) sampleDate_toISOString
       (fst (VerifyRecord.loadPage
               (constantEnv (JS.Return (Engine.okResponse (JS.Obj [("id", JS.Str "r1")]))))
               false (Some "r1") VerifyRecord.initialLoaded tt))
     = VerifyRecord.RenderThrows (JS.ErrorInstance "RangeError" "Invalid time value")
  /\ VerifyRecord.view sampleDate_parse (fun _ => None) sampleDate_toISOString
       (fst (VerifyRecord.loadPage
               (constantEnv (JS.Return (Web.mkResponse 500 (JS.Return (JS.Obj [("error", JS.Str "down")])))))
               false (Some "r1") VerifyRecord.initialLoaded tt))
     = VerifyRecord.ErrorView "down"
  /\ CreateRecordPage.view
       (fun _ => JS.Throw (JS.ErrorInstance "RangeError" "Invalid time value"))
       (fst (fst (CreateRecordPage.handleSubmit
                    (constantEnv (JS.Return (Engine.okResponse (JS.Obj [("id", JS.Str "r1")]))))
                    (CreateRecordForm.mkSubmission "T" "hello" "2024-01-15T14:30:00.000Z"
                       None None None)
                    (CreateRecordPage.mkState CreateRecordPage.Form JS.Null None) tt)))
     = CreateRecordPage.Unmounted (JS.ErrorInstance "RangeError" "Invalid time value").
Proof. repeat split. Qed.
